(** * scrape_seo.py: metadata extraction and meta-view rendering

    A shallow embedding of [src/scrape_seo.py].  Python strings are
    sequences of code points; here they are Rocq strings, whose
    characters are the code points 0..255.  Dictionaries that keep
    insertion order (the result records) and tag attributes are
    association lists. *)

From Stdlib Require Import String Ascii List ZArith Lia Bool Arith.
From Stdlib Require Import Floats.PrimFloat.
Import ListNotations.
Open Scope string_scope.
Set Warnings "-register-all".

(** ** Strings *)

Module Str.

Definition code (c : ascii) : nat := nat_of_ascii c.

Definition between (lo hi : nat) (c : ascii) : bool :=
  (lo <=? code c)%nat && (code c <=? hi)%nat.

(** [str.isspace] on the code points below 256. *)
Definition is_space (c : ascii) : bool :=
  between 9 13 c || between 28 32 c
  || (code c =? 133)%nat || (code c =? 160)%nat.

(** [str.lower] on the code points below 256. *)
Definition lower_char (c : ascii) : ascii :=
  if between 65 90 c
     || (between 192 222 c && negb (code c =? 215)%nat)
  then ascii_of_nat (code c + 32) else c.

Fixpoint lower (s : string) : string :=
  match s with
  | EmptyString => EmptyString
  | String c r => String (lower_char c) (lower r)
  end.

Fixpoint lstrip (s : string) : string :=
  match s with
  | EmptyString => EmptyString
  | String c r => if is_space c then lstrip r else s
  end.

Fixpoint rstrip (s : string) : string :=
  match s with
  | EmptyString => EmptyString
  | String c r =>
      match rstrip r with
      | EmptyString => if is_space c then EmptyString else String c EmptyString
      | r' => String c r'
      end
  end.

(** [s.strip()] *)
Definition strip (s : string) : string := rstrip (lstrip s).

Fixpoint all_chars (p : ascii -> bool) (s : string) : bool :=
  match s with
  | EmptyString => true
  | String c r => p c && all_chars p r
  end.

Fixpoint map_chars (f : ascii -> ascii) (s : string) : string :=
  match s with
  | EmptyString => EmptyString
  | String c r => String (f c) (map_chars f r)
  end.

(** [s.replace(c, by)] for a one-character pattern. *)
Fixpoint replace_char (c : ascii) (by_ : string) (s : string) : string :=
  match s with
  | EmptyString => EmptyString
  | String d r =>
      if Ascii.eqb d c then by_ ++ replace_char c by_ r
      else String d (replace_char c by_ r)
  end.

(** The concatenation of [f c] over the characters [c] of a string. *)
Fixpoint flat_chars (f : ascii -> string) (s : string) : string :=
  match s with
  | EmptyString => EmptyString
  | String c r => f c ++ flat_chars f r
  end.

(** Python's truth value of a string. *)
Definition truthy (s : string) : bool :=
  match s with EmptyString => false | _ => true end.

(** [a or b] on strings. *)
Definition or_else (a b : string) : string := if truthy a then a else b.

Fixpoint drop (n : nat) (s : string) : string :=
  match n, s with
  | O, _ => s
  | S _, EmptyString => EmptyString
  | S k, String _ r => drop k r
  end.

(** ["sep".join(items)] *)
Fixpoint join (sep : string) (items : list string) : string :=
  match items with
  | [] => EmptyString
  | [x] => x
  | x :: rest => x ++ sep ++ join sep rest
  end.

Definition nl : string := String (ascii_of_nat 10) EmptyString.
Definition dquote_char : ascii := ascii_of_nat 34.
Definition dquote : string := String dquote_char EmptyString.

End Str.

(** ** Filename sanitizer (lines 126-131) *)

(** The character class [[A-Za-z0-9._-]]. *)
Definition filename_safe (c : ascii) : bool :=
  Str.between 65 90 c || Str.between 97 122 c || Str.between 48 57 c
  || Ascii.eqb c "."%char || Ascii.eqb c "_"%char || Ascii.eqb c "-"%char.

(** [re.sub] of the pattern [^https?://] by the empty string: the
    pattern is anchored at the start, so at most one prefix is removed. *)
Definition strip_scheme (url : string) : string :=
  if String.prefix "https://" url then Str.drop 8 url
  else if String.prefix "http://" url then Str.drop 7 url
  else url.

Definition underscore_unsafe (c : ascii) : ascii :=
  if filename_safe c then c else "_"%char.

Definition sanitize_filename (url : string) : string :=
  let cleaned := strip_scheme url in
  let cleaned := Str.replace_char "/"%char "_" cleaned in
  let cleaned := Str.map_chars underscore_unsafe cleaned in
  Str.or_else cleaned "screenshot".

(** A full match of [^[A-Za-z0-9._-]+$]. *)
Definition matches_safe_name (s : string) : bool :=
  Str.truthy s && Str.all_chars filename_safe s.

(** ** Parsed documents

    The tree that the parser adapter hands to the program.  Of a tag's
    attributes only [rel] can be multi-valued for this program: the
    parser gives it either as a list of tokens or, depending on its
    configuration, as one string (see the comment at line 144).  Every
    other attribute that the program reads ([name], [property],
    [content], [href]) is a string, kept in [attrs] in source order. *)

Inductive rel_value :=
| RelList (tokens : list string)
| RelStr (s : string).

Inductive node :=
| Tag (name : string) (rel : option rel_value)
      (attrs : list (string * string)) (children : list node)
| NavigableString (text : string).

Module Dom.

Fixpoint assoc (key : string) (l : list (string * string)) : option string :=
  match l with
  | [] => None
  | (k, v) :: rest => if String.eqb k key then Some v else assoc key rest
  end.

Definition attr (key : string) (n : node) : option string :=
  match n with
  | Tag _ _ attrs _ => assoc key attrs
  | NavigableString _ => None
  end.

(** [tag.get(key, default)] *)
Definition get (n : node) (key default : string) : string :=
  match attr key n with Some v => v | None => default end.

(** [tag.get("rel")] *)
Definition get_rel (n : node) : option rel_value :=
  match n with
  | Tag _ rel _ _ => rel
  | NavigableString _ => None
  end.

Definition has_name (name : string) (n : node) : bool :=
  match n with
  | Tag nm _ _ _ => String.eqb nm name
  | NavigableString _ => false
  end.

Definition attr_is (key value : string) (n : node) : bool :=
  match attr key n with
  | Some v => String.eqb v value
  | None => false
  end.

(** A node followed by everything below it, in document order. *)
Fixpoint subtree (n : node) : list node :=
  n :: match n with
       | Tag _ _ _ cs =>
           (fix go (l : list node) : list node :=
              match l with
              | [] => []
              | c :: l' => (subtree c ++ go l')%list
              end) cs
       | NavigableString _ => []
       end.

(** [tag.descendants]: everything strictly below a node. *)
Definition descendants (n : node) : list node := tl (subtree n).

(** [tag.find_all(name)] *)
Definition find_all (name : string) (root : node) : list node :=
  filter (has_name name) (descendants root).

(** [tag.find(name)], also written [tag.<name>]: the first match of
    [find_all], or [None]. *)
Definition find (name : string) (root : node) : option node :=
  List.find (has_name name) (descendants root).

(** [tag.find(name, attrs={key: value})] *)
Definition find_attr (name key value : string) (root : node) : option node :=
  List.find (fun n => has_name name n && attr_is key value n) (descendants root).

(** [tag.string]: the only child when it is a string, looked for
    through single-child tags. *)
Fixpoint string_of (n : node) : option string :=
  match n with
  | NavigableString s => Some s
  | Tag _ _ _ [c] => string_of c
  | Tag _ _ _ _ => None
  end.

End Dom.

(** ** Metadata extractor (lines 134-169) *)

Definition record := list (string * string).

(** [d[key] = value] on a dictionary that keeps insertion order. *)
Fixpoint dict_set (d : record) (key value : string) : record :=
  match d with
  | [] => [(key, value)]
  | (k, v) :: rest =>
      if String.eqb k key then (k, value) :: rest
      else (k, v) :: dict_set rest key value
  end.

Definition dict_keys (d : record) : list string := map fst d.

Definition get_meta_by_name (soup : node) (name : string) : string :=
  match Dom.find_attr "meta" "name" name soup with
  | Some tag => Str.strip (Dom.get tag "content" EmptyString)
  | None => EmptyString
  end.

Definition get_meta_by_property (soup : node) (prop : string) : string :=
  match Dom.find_attr "meta" "property" prop soup with
  | Some tag => Str.strip (Dom.get tag "content" EmptyString)
  | None => EmptyString
  end.

(** [if not rel]: an absent attribute, an empty list or an empty string. *)
Definition rel_falsy (r : option rel_value) : bool :=
  match r with
  | None => true
  | Some (RelList []) => true
  | Some (RelList (_ :: _)) => false
  | Some (RelStr s) => negb (Str.truthy s)
  end.

(** [x in items] *)
Definition str_in (x : string) (items : list string) : bool :=
  existsb (String.eqb x) items.

(** The loop of [get_canonical] over [soup.find_all("link")]. *)
Fixpoint canonical_loop (links : list node) : string :=
  match links with
  | [] => EmptyString
  | link :: rest =>
      let rel := Dom.get_rel link in
      if rel_falsy rel then canonical_loop rest
      else match rel with
           | Some (RelList toks) =>
               let rels := map Str.lower toks in
               if str_in "canonical" rels
               then Str.strip (Dom.get link "href" EmptyString)
               else canonical_loop rest
           | Some (RelStr s) =>
               if String.eqb (Str.lower s) "canonical"
               then Str.strip (Dom.get link "href" EmptyString)
               else canonical_loop rest
           | None => canonical_loop rest
           end
  end.

Definition get_canonical (soup : node) : string :=
  canonical_loop (Dom.find_all "link" soup).

Definition title_text (soup : node) : string :=
  match Dom.find "title" soup with
  | Some title =>
      match Dom.string_of title with
      | Some s => if Str.truthy s then Str.strip s else EmptyString
      | None => EmptyString
      end
  | None => EmptyString
  end.

Definition extract_meta (soup : node) (url : string) : record :=
  [ ("url", url);
    ("title", title_text soup);
    ("description",
      Str.or_else (get_meta_by_name soup "description")
                  (get_meta_by_property soup "og:description"));
    ("keywords", get_meta_by_name soup "keywords");
    ("canonical", get_canonical soup);
    ("og:title", get_meta_by_property soup "og:title");
    ("og:url", get_meta_by_property soup "og:url");
    ("robots", get_meta_by_name soup "robots") ].

(** [record[key]] for a key the record has; the empty string stands
    for a missing key. *)
Definition field (key : string) (r : record) : string :=
  match Dom.assoc key r with Some v => v | None => EmptyString end.

(** ** Meta-view document builder (lines 194-225) *)

(** [html.escape(s)] with its default [quote=True]: five replacements
    in this order, the ampersand first. *)
Definition html_escape (s : string) : string :=
  let s := Str.replace_char "&"%char "&amp;" s in
  let s := Str.replace_char "<"%char "&lt;" s in
  let s := Str.replace_char ">"%char "&gt;" s in
  let s := Str.replace_char Str.dquote_char "&quot;" s in
  let s := Str.replace_char "'"%char "&#x27;" s in
  s.

(** The template of lines 196-224, up to the page title. *)
Definition view_head : string :=
  String.concat EmptyString
    [ Str.nl;
      "<!DOCTYPE html>";
      Str.nl;
      "<html>";
      Str.nl;
      "  <head>";
      Str.nl;
      "    <meta charset=";
      Str.dquote;
      "utf-8";
      Str.dquote;
      " />";
      Str.nl;
      "    <title>Meta tags - " ].

(** The template of lines 196-224, from the page title to the heading. *)
Definition view_mid : string :=
  String.concat EmptyString
    [ "</title>";
      Str.nl;
      "    <style>";
      Str.nl;
      "      html, body { margin: 0; padding: 0; background: #0b0e14; }";
      Str.nl;
      "      body { font-family: ui-monospace, SFMono-Regular, Menlo, Monaco, Consolas, 'Liberation Mono', 'Courier New', monospace; color: #e6e1cf; }";
      Str.nl;
      "      header { padding: 16px 20px; border-bottom: 1px solid #1f2430; position: sticky; top: 0; background: #0b0e14; z-index: 1; }";
      Str.nl;
      "      h1 { font-size: 16px; margin: 0; color: #f0f0f0; }";
      Str.nl;
      "      main { padding: 16px 20px 40px; }";
      Str.nl;
      "      pre { white-space: pre-wrap; word-break: break-word; line-height: 1.4; }";
      Str.nl;
      "      code { color: #e6e1cf; }";
      Str.nl;
      "      .tag { color: #ffcc66; }";
      Str.nl;
      "      .attr { color: #5ccfe6; }";
      Str.nl;
      "      .val { color: #bae67e; }";
      Str.nl;
      "    </style>";
      Str.nl;
      "  </head>";
      Str.nl;
      "  <body>";
      Str.nl;
      "    <header>";
      Str.nl;
      "      <h1>Meta tags for " ].

(** The template of lines 196-224, from the heading to the code block. *)
Definition view_body : string :=
  String.concat EmptyString
    [ "</h1>";
      Str.nl;
      "    </header>";
      Str.nl;
      "    <main>";
      Str.nl;
      "      <pre><code>" ].

(** The template of lines 196-224, after the code block. *)
Definition view_tail : string :=
  String.concat EmptyString
    [ "</code></pre>";
      Str.nl;
      "    </main>";
      Str.nl;
      "  </body>";
      Str.nl;
      " </html>";
      Str.nl ].

Definition build_meta_view_html (url meta_markup : string) : string :=
  let escaped := html_escape meta_markup in
  view_head ++ html_escape url ++ view_mid ++ html_escape url
    ++ view_body ++ escaped ++ view_tail.

(** ** Render geometry (lines 239-243) *)

(** What [execute_script] hands back for the height: an integer, or a
    value on which [int] raises. *)
Inductive script_value :=
| JsInt (z : Z)
| JsOther.

Definition exn := string.

(** [int(height)] *)
Definition py_int (v : script_value) : exn + Z :=
  match v with
  | JsInt z => inr z
  | JsOther => inl "TypeError"
  end.

Definition viewport_height (height : script_value) : Z :=
  let height_int :=
    match py_int height with
    | inr z => z
    | inl _ => 1200%Z
    end in
  Z.max 800 (Z.min (height_int + 100) 6000).

(** [clamp(x, lo, hi)] as the specification writes it. *)
Definition clamp (x lo hi : Z) : Z :=
  if (x <? lo)%Z then lo else if (hi <? x)%Z then hi else x.

(** ** The browser

    The driver is an external collaborator.  Its state is the list of
    commands sent so far, most recent first; what it answers to a
    command may depend on all of them.  The record of its answers also
    holds the two other calls that can raise inside the [try] of
    [main]: [time.sleep] on the delay given ([on_sleep]) and [print] to
    standard output ([on_print]). *)

Inductive command :=
| Get (url : string)
| SaveScreenshot (path : string)
| PageSource
| ExecuteScript (script : string)
| SetWindowSize (width height : Z)
| Quit.

Definition history := list command.

Record browser := mkBrowser {
  on_get : history -> string -> option exn;
  on_save_screenshot : history -> string -> option exn;
  on_page_source : history -> exn + node;
  on_execute_script : history -> string -> exn + script_value;
  on_set_window_size : history -> Z -> Z -> option exn;
  on_quit : history -> option exn;
  on_sleep : history -> float -> option exn;
  on_print : history -> string -> option exn
}.

(** Computations that send commands and may raise. *)
Definition M (A : Type) : Type := history -> history * (exn + A).

Definition ret {A} (a : A) : M A := fun h => (h, inr a).

Definition bind {A B} (m : M A) (k : A -> M B) : M B :=
  fun h =>
    match m h with
    | (h', inr a) => k a h'
    | (h', inl e) => (h', inl e)
    end.

(** [try: m  except Exception as e: handler(e)] *)
Definition try_catch {A} (m : M A) (handler : exn -> M A) : M A :=
  fun h =>
    match m h with
    | (h', inr a) => (h', inr a)
    | (h', inl e) => handler e h'
    end.

Declare Scope browser_scope.
Delimit Scope browser_scope with browser.
Notation "x <- m ;; k" := (bind m (fun x => k))
  (at level 61, m at next level, right associativity) : browser_scope.
Notation "m ;; k" := (bind m (fun _ => k))
  (at level 61, right associativity) : browser_scope.

Definition unit_answer (o : option exn) : exn + unit :=
  match o with Some e => inl e | None => inr tt end.

Definition drv_get (b : browser) (url : string) : M unit :=
  fun h => (Get url :: h, unit_answer (on_get b h url)).

Definition drv_save_screenshot (b : browser) (path : string) : M unit :=
  fun h => (SaveScreenshot path :: h, unit_answer (on_save_screenshot b h path)).

Definition drv_page_source (b : browser) : M node :=
  fun h => (PageSource :: h, on_page_source b h).

Definition drv_execute_script (b : browser) (script : string) : M script_value :=
  fun h => (ExecuteScript script :: h, on_execute_script b h script).

Definition drv_set_window_size (b : browser) (w ht : Z) : M unit :=
  fun h => (SetWindowSize w ht :: h, unit_answer (on_set_window_size b h w ht)).

Definition drv_quit (b : browser) : M unit :=
  fun h => (Quit :: h, unit_answer (on_quit b h)).

(** [time.sleep(secs)] on the delay given (line 288): no command is
    sent, yet the call raises for a length it does not accept.  The
    fixed sleeps of lines 233 and 245 cannot raise and are left out. *)
Definition py_sleep (b : browser) (secs : float) : M unit :=
  fun h => (h, unit_answer (on_sleep b h secs)).

(** [print(text)] to standard output: no command is sent, yet the
    write may raise. *)
Definition print_out (b : browser) (text : string) : M unit :=
  fun h => (h, unit_answer (on_print b h text)).

Definition height_script : string :=
  "return Math.max(document.body.scrollHeight, document.documentElement.scrollHeight, document.body.offsetHeight, document.documentElement.offsetHeight, document.body.clientHeight, document.documentElement.clientHeight);".

(** ** Serializers (lines 255-262) *)

Inductive csv_outcome :=
| CsvNotWritten
| CsvWritten (rows : list (list string))
| CsvRaised (rows : list (list string)) (e : exn).

(** [rowdict.keys() - self.fieldnames] of [csv.DictWriter]. *)
Definition wrong_fields (fieldnames : list string) (row : record) : list string :=
  filter (fun k => negb (str_in k fieldnames)) (dict_keys row).

(** [DictWriter._dict_to_list] with the defaults that [write_csv]
    leaves in place: [extrasaction] is [raise] and [restval] is the
    empty string. *)
Definition dict_to_list (fieldnames : list string) (row : record)
  : exn + list string :=
  match wrong_fields fieldnames row with
  | [] => inr (map (fun key => field key row) fieldnames)
  | _ :: _ => inl "ValueError: dict contains fields not in fieldnames"
  end.

(** [writer.writerows(rows)]: the rows before a failing one are
    already written. *)
Fixpoint writerows (fieldnames : list string) (rows : list record)
         (written : list (list string)) : csv_outcome :=
  match rows with
  | [] => CsvWritten written
  | row :: rest =>
      match dict_to_list fieldnames row with
      | inr cells => writerows fieldnames rest (written ++ [cells])
      | inl e => CsvRaised written e
      end
  end.

Definition write_csv (rows : list record) : csv_outcome :=
  match rows with
  | [] => CsvNotWritten
  | first :: _ =>
      let fieldnames := dict_keys first in
      writerows fieldnames rows [fieldnames]
  end.

(** [json.dump] writes whatever keys each object has. *)
Definition write_json (rows : list record) : list record := rows.

(** ** Head-markup collector, meta-view capture and the batch *)

Definition allow_set : list string :=
  ["canonical"; "alternate"; "preload"; "manifest"; "icon"].

Record arguments := mkArguments {
  screenshots_dir : string;
  meta_screenshots_dir : string;
  delay_seconds : float
}.

Definition failed_meta (url : string) (e : exn) : record :=
  [("url", url); ("error", e); ("screenshot", EmptyString)].

Section Pipeline.

(** Library functions whose text is not part of the program:
    [str(tag)], [urllib.parse.quote] and [str(Path(dir) / name)]. *)
Variable str_of_tag : node -> string.
Variable quote : string -> string.
Variable path_join : string -> string -> string.

(** The body of the loop over [head.find_all("link")], lines 185-190. *)
Definition link_step (lines : list string) (link : node) : list string :=
  let rel := Dom.get_rel link in
  if rel_falsy rel then lines
  else
    let rels :=
      map Str.lower
          match rel with
          | Some (RelList toks) => toks
          | Some (RelStr s) => [s]
          | None => []
          end in
    if existsb (fun r => str_in r allow_set) rels
    then (lines ++ [str_of_tag link])%list
    else lines.

Definition collect_head_meta_markup (soup : node) : string :=
  match Dom.find "head" soup with
  | None => EmptyString
  | Some head =>
      let lines : list string := [] in
      let lines :=
        match Dom.find "title" head with
        | Some title => (lines ++ [str_of_tag title])%list
        | None => lines
        end in
      let lines :=
        fold_left (fun ls tag => (ls ++ [str_of_tag tag])%list)
                  (Dom.find_all "meta" head) lines in
      let lines := fold_left link_step (Dom.find_all "link" head) lines in
      Str.join Str.nl lines
  end.

Open Scope browser_scope.

(** Lines 234-247: measure, resize, and swallow whatever is raised. *)
Definition resize_to_content (b : browser) : M unit :=
  try_catch
    (height <- drv_execute_script b height_script ;;
     drv_set_window_size b 1920 (viewport_height height))
    (fun _ => ret tt).

Definition screenshot_meta_view (b : browser) (url : string) (soup : node)
           (out_dir : string) : M string :=
  let meta_markup := collect_head_meta_markup soup in
  let html_doc := build_meta_view_html url meta_markup in
  let data_url := "data:text/html;charset=utf-8," ++ quote html_doc in
  drv_get b data_url ;;
  resize_to_content b ;;
  let meta_filename := sanitize_filename url ++ "_meta.png" in
  let meta_path := path_join out_dir meta_filename in
  drv_save_screenshot b meta_path ;;
  ret meta_path.

(** [s[:n]] *)
Definition str_take (n : nat) (s : string) : string := String.substring 0 n s.

(** ["-" * 60] *)
Definition rule_line : string :=
  String.concat EmptyString (repeat "-" 60).

(** The summary of lines 309-315, printed inside the [try]. *)
Definition print_summary (b : browser) (meta : record) (screenshot_path : string)
  : M unit :=
  print_out b ("Title: " ++ field "title" meta) ;;
  print_out b ("Description: " ++ str_take 160 (field "description" meta)) ;;
  print_out b ("Canonical: " ++ field "canonical" meta) ;;
  print_out b ("Screenshot: " ++ screenshot_path) ;;
  (if Str.truthy (field "meta_screenshot" meta)
   then print_out b ("Meta screenshot: " ++ field "meta_screenshot" meta)
   else ret tt) ;;
  print_out b rule_line.

(** The body of the [try] of lines 286-317, up to the record.  The
    messages to standard error (lines 305 and 319) are left out, and
    so is the print of line 285, which comes before the [try]: a run
    in which that one raises ends there. *)
Definition process_url (b : browser) (args : arguments) (url : string) : M record :=
  drv_get b url ;;
  py_sleep b (delay_seconds args) ;;
  let filename := sanitize_filename url ++ ".png" in
  let screenshot_path := path_join (screenshots_dir args) filename in
  drv_save_screenshot b screenshot_path ;;
  soup <- drv_page_source b ;;
  let meta := extract_meta soup url in
  let meta := dict_set meta "screenshot" screenshot_path in
  meta_view_path <-
    try_catch (screenshot_meta_view b url soup (meta_screenshots_dir args))
              (fun _ => ret EmptyString) ;;
  let meta := dict_set meta "meta_screenshot" meta_view_path in
  print_summary b meta screenshot_path ;;
  ret meta.

(** The loop of lines 284-321: [results] grows by one record per URL. *)
Fixpoint main_loop (b : browser) (args : arguments) (urls : list string)
         (results : list record) : history -> history * list record :=
  fun h =>
    match urls with
    | [] => (h, results)
    | url :: rest =>
        match process_url b args url h with
        | (h', inr meta) => main_loop b args rest (results ++ [meta])%list h'
        | (h', inl e) =>
            main_loop b args rest (results ++ [failed_meta url e])%list h'
        end
    end.

(** Lines 281-329 after the driver is created: the batch, [quit] with
    its errors dropped, then the two serializers. *)
Definition main (b : browser) (args : arguments) (urls : list string)
  : list record * csv_outcome :=
  let '(h, results) := main_loop b args urls [] [] in
  let _ := try_catch (drv_quit b) (fun _ => ret tt) h in
  (results, write_csv results).

Close Scope browser_scope.

End Pipeline.

(** ** The specification's vocabulary *)

Module Spec.

(** The rel attribute as a set of lower-case tokens: the tokens of a
    multi-valued attribute, the one value of a single-valued one. *)
Definition rel_tokens (n : node) : list string :=
  match Dom.get_rel n with
  | Some (RelList toks) => map Str.lower toks
  | Some (RelStr s) => [Str.lower s]
  | None => []
  end.

(** A [<link>] whose rel tokens contain ["canonical"]. *)
Definition canonical_link (n : node) : bool :=
  Dom.has_name "link" n && str_in "canonical" (rel_tokens n).

(** A rel attribute that meets the allow-set. *)
Definition allowed_rel (n : node) : bool :=
  existsb (fun t => str_in t allow_set) (rel_tokens n).

(** A [<meta>] whose attribute [key] is [value]. *)
Definition meta_with (key value : string) (n : node) : bool :=
  Dom.has_name "meta" n && Dom.attr_is key value n.

(** The trimmed content attribute of a tag, empty when it has none. *)
Definition content (n : node) : string :=
  Str.strip (Dom.get n "content" EmptyString).

(** The trimmed href attribute of a tag, empty when it has none. *)
Definition href (n : node) : string :=
  Str.strip (Dom.get n "href" EmptyString).

(** No element of [l] satisfies [p]. *)
Definition none_of (p : node -> bool) (l : list node) : bool :=
  forallb (fun n => negb (p n)) l.

(** [x] is the first element of [l], in order, that satisfies [p]. *)
Definition first_in (p : node -> bool) (l : list node) (x : node) : Prop :=
  exists pre post,
    l = (pre ++ x :: post)%list /\ none_of p pre = true /\ p x = true.

(** The first [<meta>] of a document whose attribute [key] is [value]. *)
Definition first_meta (key value : string) (soup x : node) : Prop :=
  first_in (meta_with key value) (Dom.descendants soup) x.

(** A document without a [<meta>] whose attribute [key] is [value]. *)
Definition no_meta (key value : string) (soup : node) : Prop :=
  none_of (meta_with key value) (Dom.descendants soup) = true.

(** The characters that open or close markup or an attribute value. *)
Definition markup_char (c : ascii) : bool :=
  Ascii.eqb c "<"%char || Ascii.eqb c ">"%char
  || Ascii.eqb c Str.dquote_char || Ascii.eqb c "'"%char.

(** The entity that stands for one character. *)
Definition escape_char (c : ascii) : string :=
  if Ascii.eqb c "&"%char then "&amp;"
  else if Ascii.eqb c "<"%char then "&lt;"
  else if Ascii.eqb c ">"%char then "&gt;"
  else if Ascii.eqb c Str.dquote_char then "&quot;"
  else if Ascii.eqb c "'"%char then "&#x27;"
  else String c EmptyString.

Definition escape_text (s : string) : string := Str.flat_chars escape_char s.

Definition markup_free (s : string) : bool :=
  Str.all_chars (fun c => negb (markup_char c)) s.

Definition metadata_keys : list string :=
  ["url"; "title"; "description"; "keywords"; "canonical"; "og:title";
   "og:url"; "robots"; "screenshot"; "meta_screenshot"].

Definition error_keys : list string := ["url"; "error"; "screenshot"].

(** One record per URL, in order: the record of a run that returns, the
    error variant of a run that raises. *)
Definition record_of (url : string) (out : exn + record) : record :=
  match out with
  | inr meta => meta
  | inl e => failed_meta url e
  end.

End Spec.

(** ** Sample documents *)

Module Sample.

Definition link_tag (rel : rel_value) (href : string) : node :=
  Tag "link" (Some rel) [("href", href)] [].

Definition meta_name (name content : string) : node :=
  Tag "meta" None [("name", name); ("content", content)] [].

Definition meta_property (prop content : string) : node :=
  Tag "meta" None [("property", prop); ("content", content)] [].

Definition title_tag (text : string) : node :=
  Tag "title" None [] [NavigableString text].

(** A document whose head holds the given tags. *)
Definition page (head_children : list node) : node :=
  Tag "[document]" None []
      [Tag "html" None []
           [Tag "head" None [] head_children; Tag "body" None [] []]].

Definition blank_description : node := meta_name "description" "  ".
Definition og_description : node := meta_property "og:description" "From OG".

(** A description tag with nothing in it, and an Open Graph one. *)
Definition blank_description_page : node :=
  page [blank_description; og_description].

Definition first_keywords : node := meta_name "keywords" " a, b ".

Definition duplicate_keywords_page : node :=
  page [title_tag "T"; first_keywords; meta_name "keywords" "later"].

Definition canonical_tag : node :=
  link_tag (RelList ["Canonical"; "alternate"]) " https://example.com/ ".

(** A description tag with nothing in it and no Open Graph one. *)
Definition blank_only_page : node := page [blank_description].

Definition described_page : node :=
  page [meta_name "description" " Hello "; og_description].

Definition og_only_page : node := page [title_tag "T"; og_description].

Definition canonical_page : node :=
  page [link_tag (RelList ["stylesheet"]) "/s.css"; canonical_tag;
        link_tag (RelList ["canonical"]) "https://other.example/"].

(** A stand-in for [str(tag)]: the tag name in angle brackets. *)
Definition show_tag (n : node) : string :=
  match n with
  | Tag name _ _ _ => "<" ++ name ++ ">"
  | NavigableString text => text
  end.

Definition head_page : node :=
  page [link_tag (RelList ["stylesheet"]) "/s.css";
        meta_name "robots" "noindex";
        link_tag (RelList ["Alternate"; "nofollow"]) "/fr";
        title_tag "T";
        meta_property "og:title" "T"].

(** A head with nothing the collector keeps. *)
Definition bare_page : node := page [link_tag (RelList ["stylesheet"]) "/s.css"].

(** A [time.sleep] that raises on a negative length. *)
Definition rejects_negative (_ : history) (secs : float) : option exn :=
  if PrimFloat.ltb secs 0%float
  then Some "ValueError: sleep length must be non-negative" else None.

(** A browser that serves [doc] for every URL but [bad_url], on which
    navigation raises, and that answers [height] to the height script. *)
Definition serving (doc : node) (height : exn + script_value) (bad_url : string)
  : browser :=
  mkBrowser
    (fun _ url =>
       if String.eqb url bad_url
       then Some "WebDriverException: navigation failed" else None)
    (fun _ _ => None)
    (fun _ => inr doc)
    (fun _ _ => height)
    (fun _ _ _ => None)
    (fun _ => None)
    rejects_negative
    (fun _ _ => None).

Definition measuring_browser : browser :=
  serving described_page (inr (JsInt 2000)) "https://bad.example".

Definition unmeasurable_browser : browser :=
  serving described_page (inl "JavascriptException") "https://bad.example".

Definition args : arguments := mkArguments "shots" "meta" 2%float.

Definition join_path (dir name : string) : string := dir ++ "/" ++ name.

(** What the batch records for a page served and for a page refused. *)
Definition ok_record : record :=
  [("url", "https://a.example"); ("title", EmptyString);
   ("description", "Hello"); ("keywords", EmptyString);
   ("canonical", EmptyString); ("og:title", EmptyString);
   ("og:url", EmptyString); ("robots", EmptyString);
   ("screenshot", "shots/a.example.png");
   ("meta_screenshot", "meta/a.example_meta.png")].

Definition error_record : record :=
  failed_meta "https://bad.example" "WebDriverException: navigation failed".

Definition no_quote (s : string) : string := s.

End Sample.

(** ** URL list (lines 75-93) *)

Module Cli.

(** [s.split(sep)] for a one-character separator: one piece more than
    there are separators. *)
Fixpoint split (sep : ascii) (s : string) : list string :=
  match s with
  | EmptyString => [EmptyString]
  | String c r =>
      if Ascii.eqb c sep then EmptyString :: split sep r
      else match split sep r with
           | x :: xs => String c x :: xs
           | [] => [String c EmptyString]
           end
  end.

(** What [parse_args] gives [load_urls]: the [--url] values, [None]
    when the flag was never passed, and the [--input] path. *)
Record namespace := mkNamespace {
  urls : option (list string);
  input_file : option string
}.

Definition default_urls : list string :=
  ["https://example.com"; "https://www.python.org"].

(** [[u.strip() for u in item.split(",") if u.strip()]] *)
Definition parts (item : string) : list string :=
  map Str.strip
      (filter (fun u => Str.truthy (Str.strip u)) (split ","%char item)).

(** The body of the loop over the lines of the input file. *)
Definition add_line (acc : list string) (line : string) : list string :=
  let u := Str.strip line in
  if Str.truthy u then (acc ++ [u])%list else acc.

(** [if not urls: urls = [...]] *)
Definition or_default (found : list string) : list string :=
  match found with
  | [] => default_urls
  | _ :: _ => found
  end.

(** A URL as [load_urls] hands it on: not empty, nothing to trim. *)
Definition clean (u : string) : Prop :=
  Str.truthy u = true /\ Str.strip u = u.

Section Files.

(** Opening a file and iterating over it: the lines, or the error that
    [open] raises. *)
Variable read_lines : string -> exn + list string.

Definition load_urls (args : namespace) : exn + list string :=
  let found : list string := [] in
  let found :=
    match urls args with
    | Some ((_ :: _) as items) =>
        fold_left (fun acc item => (acc ++ parts item)%list) items found
    | _ => found
    end in
  match input_file args with
  | Some path =>
      if Str.truthy path
      then match read_lines path with
           | inl e => inl e
           | inr lines => inr (or_default (fold_left add_line lines found))
           end
      else inr (or_default found)
  | None => inr (or_default found)
  end.

End Files.

End Cli.

(** ** The whole run (lines 270-332) *)

(** What [create_webdriver] gives: a driver, or a [WebDriverException]. *)
Inductive driver_init :=
| DriverReady (b : browser)
| DriverFailed (e : exn).

(** How a run ends: the exit code or the exception that nothing
    catches, the commands sent, and what reached the two files. *)
Record run := mkRun {
  exit_code : exn + Z;
  commands : history;
  csv_file : csv_outcome;
  json_file : option (list record)
}.

Section Program.

Variable str_of_tag : node -> string.
Variable quote : string -> string.
Variable path_join : string -> string -> string.

Definition run_main (init : driver_init) (args : arguments)
           (url_list : list string) : run :=
  match init with
  | DriverFailed _ => mkRun (inr 2%Z) [] CsvNotWritten None
  | DriverReady b =>
      let '(h, results) :=
        main_loop str_of_tag quote path_join b args url_list [] [] in
      let h := fst (try_catch (drv_quit b) (fun _ => ret tt) h) in
      match write_csv results with
      | CsvRaised written e => mkRun (inl e) h (CsvRaised written e) None
      | out => mkRun (inr 0%Z) h out (Some (write_json results))
      end
  end.

End Program.

(** ** Commands sent *)

(** A computation that only adds commands to the history, and no
    [Quit] among them. *)
Definition sends_no_quit {A : Type} (m : M A) : Prop :=
  forall h : history,
    exists cs : list command, fst (m h) = (cs ++ h)%list /\ ~ In Quit cs.

(** ** Reading escaped text back *)

Module Inverse.

(** The text that [html_escape] came from: each of the five entities
    gives its character back, anything else stands for itself. *)
Fixpoint unescape (s : string) : string :=
  match s with
  | EmptyString => EmptyString
  | String "&" (String "a" (String "m" (String "p" (String ";" r)))) =>
      String "&" (unescape r)
  | String "&" (String "l" (String "t" (String ";" r))) =>
      String "<" (unescape r)
  | String "&" (String "g" (String "t" (String ";" r))) =>
      String ">" (unescape r)
  | String "&" (String "q" (String "u" (String "o" (String "t" (String ";" r))))) =>
      String Str.dquote_char (unescape r)
  | String "&" (String "#" (String "x" (String "2" (String "7" (String ";" r))))) =>
      String "'" (unescape r)
  | String c r => String c (unescape r)
  end.

End Inverse.

(** ** More samples *)

Module Sample2.

(** A browser that serves the same document for every URL and never
    raises. *)
Definition reliable_browser : browser :=
  mkBrowser (fun _ _ => None) (fun _ _ => None)
            (fun _ => inr Sample.described_page)
            (fun _ _ => inr (JsInt 2000))
            (fun _ _ _ => None) (fun _ => None)
            Sample.rejects_negative (fun _ _ => None).

(** A browser on which every navigation raises. *)
Definition dead_browser : browser :=
  mkBrowser (fun _ _ => Some "WebDriverException: unreachable") (fun _ _ => None)
            (fun _ => inr Sample.described_page)
            (fun _ _ => inr (JsInt 2000))
            (fun _ _ _ => None) (fun _ => None)
            Sample.rejects_negative (fun _ _ => None).

(** A browser that refuses the meta-view document (any [data:] URL)
    and serves everything else. *)
Definition no_data_url_browser : browser :=
  mkBrowser
    (fun _ url =>
       if String.prefix "data:" url
       then Some "WebDriverException: data URL refused" else None)
    (fun _ _ => None)
    (fun _ => inr Sample.described_page)
    (fun _ _ => inr (JsInt 2000))
    (fun _ _ _ => None) (fun _ => None)
    Sample.rejects_negative (fun _ _ => None).

(** A browser that never raises, under a standard output that cannot
    be written to. *)
Definition mute_browser : browser :=
  mkBrowser (fun _ _ => None) (fun _ _ => None)
            (fun _ => inr Sample.described_page)
            (fun _ _ => inr (JsInt 2000))
            (fun _ _ _ => None) (fun _ => None)
            Sample.rejects_negative
            (fun _ _ => Some "UnicodeEncodeError").

(** The arguments of a run with [--delay -1]. *)
Definition negative_delay : arguments := mkArguments "shots" "meta" (-1)%float.

(** A file system with one file of three lines. *)
Definition one_file (path : string) : exn + list string :=
  if String.eqb path "urls.txt"
  then inr ["https://a.example" ++ Str.nl; Str.nl; "  https://b.example  " ++ Str.nl]
  else inl "FileNotFoundError".

(** A title with markup inside. *)
Definition mixed_title_page : node :=
  Sample.page [Tag "title" None []
                   [NavigableString "A"; Tag "b" None [] [NavigableString "B"]]].

End Sample2.

(** * Properties *)

(** ** Strings *)

Section StringFacts.

Variable p : ascii -> bool.

Lemma all_chars_app (s t : string) :
  Str.all_chars p (s ++ t) = Str.all_chars p s && Str.all_chars p t.
Proof.
  induction s as [|c s IH]; simpl; [reflexivity|].
  now rewrite IH, andb_assoc.
Qed.

Lemma all_chars_prefix (q s : string) :
  String.prefix q s = true -> Str.all_chars p s = true -> Str.all_chars p q = true.
Proof.
  revert s; induction q as [|a q IH]; intros s Hpre Hall; [reflexivity|].
  destruct s as [|b s]; simpl in Hpre; [discriminate|].
  destruct (ascii_dec a b) as [->|]; [|discriminate].
  simpl in *. apply andb_true_iff in Hall as [Hb Hs].
  rewrite Hb; simpl; eauto.
Qed.

Lemma replace_char_fixed (c : ascii) (by_ s : string) :
  p c = false -> Str.all_chars p s = true -> Str.replace_char c by_ s = s.
Proof.
  intros Hc; induction s as [|d s IH]; simpl; intros Hall; [reflexivity|].
  apply andb_true_iff in Hall as [Hd Hs].
  destruct (Ascii.eqb_spec d c) as [->|_]; [congruence|].
  now rewrite IH.
Qed.

End StringFacts.


Lemma or_else_truthy (a b : string) :
  Str.truthy a = true -> Str.or_else a b = a.
Proof. unfold Str.or_else; now intros ->. Qed.

Lemma or_else_empty (b : string) : Str.or_else EmptyString b = b.
Proof. reflexivity. Qed.

(** ** Filename sanitizer *)

Lemma underscore_unsafe_safe (c : ascii) :
  filename_safe (underscore_unsafe c) = true.
Proof.
  unfold underscore_unsafe. destruct (filename_safe c) eqn:E; [exact E|reflexivity].
Qed.

Lemma map_underscore_safe (s : string) :
  Str.all_chars filename_safe (Str.map_chars underscore_unsafe s) = true.
Proof.
  induction s as [|c s IH]; simpl; [reflexivity|].
  now rewrite underscore_unsafe_safe, IH.
Qed.

Lemma map_underscore_fixed (s : string) :
  Str.all_chars filename_safe s = true -> Str.map_chars underscore_unsafe s = s.
Proof.
  induction s as [|c s IH]; simpl; intros H; [reflexivity|].
  apply andb_true_iff in H as [Hc Hs].
  unfold underscore_unsafe at 1. now rewrite Hc, IH.
Qed.

Lemma strip_scheme_fixed (s : string) :
  Str.all_chars filename_safe s = true -> strip_scheme s = s.
Proof.
  intros Hall. unfold strip_scheme.
  destruct (String.prefix "https://" s) eqn:E1.
  { apply (all_chars_prefix filename_safe _ _ E1) in Hall. discriminate. }
  destruct (String.prefix "http://" s) eqn:E2; [|reflexivity].
  apply (all_chars_prefix filename_safe _ _ E2) in Hall. discriminate.
Qed.

Lemma sanitize_safe_fixed (s : string) :
  matches_safe_name s = true -> sanitize_filename s = s.
Proof.
  unfold matches_safe_name, sanitize_filename.
  intros H. apply andb_true_iff in H as [Hne Hall].
  rewrite (strip_scheme_fixed _ Hall).
  rewrite (replace_char_fixed filename_safe) by (reflexivity || assumption).
  rewrite (map_underscore_fixed _ Hall).
  now apply or_else_truthy.
Qed.

Lemma sanitize_matches (url : string) :
  matches_safe_name (sanitize_filename url) = true.
Proof.
  unfold sanitize_filename, Str.or_else.
  set (cleaned := Str.map_chars _ _).
  destruct (Str.truthy cleaned) eqn:E; [|reflexivity].
  unfold matches_safe_name. rewrite E. apply map_underscore_safe.
Qed.

(** C8: [sanitize_filename] is idempotent, its result is always a
    non-empty word over [A-Za-z0-9._-], and the empty string and
    ["https://"] both give ["screenshot"]. *)
Theorem sanitize_filename_idempotent_safe :
  (forall url : string,
      sanitize_filename (sanitize_filename url) = sanitize_filename url
      /\ matches_safe_name (sanitize_filename url) = true)
  /\ sanitize_filename EmptyString = "screenshot"
  /\ sanitize_filename "https://" = "screenshot".
Proof.
  split; [|split; reflexivity].
  intros url. split; [|apply sanitize_matches].
  apply sanitize_safe_fixed, sanitize_matches.
Qed.

(** ** Metadata extractor *)

Lemma find_first {A} (p : A -> bool) (pre : list A) (x : A) (post : list A) :
  forallb (fun a => negb (p a)) pre = true -> p x = true ->
  List.find p (pre ++ x :: post) = Some x.
Proof.
  intros Hpre Hx. induction pre as [|a pre IH]; simpl in *.
  - now rewrite Hx.
  - apply andb_true_iff in Hpre as [Ha Hpre].
    apply negb_true_iff in Ha. rewrite Ha. auto.
Qed.

Lemma find_none {A} (p : A -> bool) (l : list A) :
  forallb (fun a => negb (p a)) l = true -> List.find p l = None.
Proof.
  induction l as [|a l IH]; simpl; intros H; [reflexivity|].
  apply andb_true_iff in H as [Ha Hl].
  apply negb_true_iff in Ha. rewrite Ha. auto.
Qed.

(** The two branches of [get_canonical] agree with membership in the
    token set. *)
Lemma canonical_loop_find (l : list node) :
  canonical_loop (filter (Dom.has_name "link") l)
  = match List.find Spec.canonical_link l with
    | Some link => Spec.href link
    | None => EmptyString
    end.
Proof.
  induction l as [|n l IH]; [reflexivity|].
  simpl filter. simpl List.find. unfold Spec.canonical_link at 1.
  destruct (Dom.has_name "link" n) eqn:Hname; simpl andb; [|exact IH].
  simpl canonical_loop. unfold Spec.rel_tokens, Spec.href.
  destruct (Dom.get_rel n) as [[[|t toks]|s]|]; simpl rel_falsy; cbv iota.
  - exact IH.
  - destruct (str_in "canonical" (map Str.lower (t :: toks))); [reflexivity|exact IH].
  - destruct s as [|c s]; cbn [Str.truthy negb]; cbv iota; [exact IH|].
    unfold str_in; cbn [existsb map]. rewrite orb_false_r.
    rewrite (String.eqb_sym "canonical").
    destruct (String.eqb (Str.lower (String c s)) "canonical"); [reflexivity|exact IH].
  - exact IH.
Qed.

Lemma get_canonical_find (soup : node) :
  get_canonical soup
  = match List.find Spec.canonical_link (Dom.descendants soup) with
    | Some link => Spec.href link
    | None => EmptyString
    end.
Proof. apply canonical_loop_find. Qed.

(** C1: [canonical] is the trimmed href of the first [<link>] in
    document order whose rel tokens, lower-cased, contain ["canonical"],
    and the empty string when there is none; [rel="canonical alternate"]
    and a rel of ["Canonical"] both fill the field. *)
Theorem canonical_first_matching_link (soup : node) (url : string) :
  field "canonical" (extract_meta soup url)
  = match List.find Spec.canonical_link (Dom.descendants soup) with
    | Some link => Spec.href link
    | None => EmptyString
    end
  /\ (forall pre link post,
         Dom.descendants soup = (pre ++ link :: post)%list ->
         Spec.none_of Spec.canonical_link pre = true ->
         Spec.canonical_link link = true ->
         field "canonical" (extract_meta soup url) = Spec.href link)
  /\ (Spec.none_of Spec.canonical_link (Dom.descendants soup) = true ->
      field "canonical" (extract_meta soup url) = EmptyString)
  /\ (forall h : string,
         field "canonical"
           (extract_meta
              (Sample.page [Sample.link_tag (RelList ["canonical"; "alternate"]) h]) url)
         = Str.strip h
         /\ field "canonical"
              (extract_meta (Sample.page [Sample.link_tag (RelList ["Canonical"]) h]) url)
            = Str.strip h).
Proof.
  change (field "canonical" (extract_meta soup url)) with (get_canonical soup).
  rewrite get_canonical_find.
  split; [reflexivity|]. split; [|split].
  - intros pre link post Hd Hpre Hlink.
    rewrite Hd, (find_first _ _ _ _ Hpre Hlink). reflexivity.
  - intros Hnone. now rewrite (find_none _ _ Hnone).
  - intros h. split; reflexivity.
Qed.

Lemma find_first_in (p : node -> bool) (l : list node) (x : node) :
  List.find p l = Some x -> Spec.first_in p l x.
Proof.
  induction l as [|a l IH]; simpl; [discriminate|].
  destruct (p a) eqn:Ha.
  - intros [= ->]. exists [], l. auto.
  - intros H. destruct (IH H) as (pre & post & -> & Hpre & Hx).
    exists (a :: pre), post. simpl. unfold Spec.none_of in *; simpl.
    rewrite Ha. auto.
Qed.

Lemma first_in_find (p : node -> bool) (l : list node) (x : node) :
  Spec.first_in p l x -> List.find p l = Some x.
Proof.
  intros (pre & post & -> & Hpre & Hx). now apply find_first.
Qed.

Lemma canonical_first_matching_link_witness :
  Spec.canonical_link Sample.canonical_tag = true
  /\ field "canonical" (extract_meta Sample.canonical_page "u") = "https://example.com/".
Proof.
  split; [reflexivity|].
  destruct (find_first_in _ _ _
              (eq_refl : List.find Spec.canonical_link
                           (Dom.descendants Sample.canonical_page)
                         = Some Sample.canonical_tag))
    as (pre & post & Hd & Hpre & Hlink).
  exact (proj1 (proj2 (canonical_first_matching_link Sample.canonical_page "u"))
               pre Sample.canonical_tag post Hd Hpre Hlink).
Defined.

Lemma get_meta_by_name_first (soup : node) (name : string) (m : node) :
  Spec.first_meta "name" name soup m -> get_meta_by_name soup name = Spec.content m.
Proof.
  intros H. unfold get_meta_by_name, Dom.find_attr.
  fold (Spec.meta_with "name" name). now rewrite (first_in_find _ _ _ H).
Qed.

Lemma get_meta_by_property_first (soup : node) (prop : string) (m : node) :
  Spec.first_meta "property" prop soup m ->
  get_meta_by_property soup prop = Spec.content m.
Proof.
  intros H. unfold get_meta_by_property, Dom.find_attr.
  fold (Spec.meta_with "property" prop). now rewrite (first_in_find _ _ _ H).
Qed.

Lemma get_meta_by_name_none (soup : node) (name : string) :
  Spec.no_meta "name" name soup -> get_meta_by_name soup name = EmptyString.
Proof.
  intros H. unfold get_meta_by_name, Dom.find_attr.
  fold (Spec.meta_with "name" name). now rewrite (find_none _ _ H).
Qed.

Lemma get_meta_by_property_none (soup : node) (prop : string) :
  Spec.no_meta "property" prop soup -> get_meta_by_property soup prop = EmptyString.
Proof.
  intros H. unfold get_meta_by_property, Dom.find_attr.
  fold (Spec.meta_with "property" prop). now rewrite (find_none _ _ H).
Qed.

Lemma description_field (soup : node) (url : string) :
  field "description" (extract_meta soup url)
  = Str.or_else (get_meta_by_name soup "description")
                (get_meta_by_property soup "og:description").
Proof. reflexivity. Qed.

(** C2, as the specification states it, fails on a description tag
    with blank content next to an Open Graph description: the tag is
    present, yet the field is the Open Graph value. *)
Lemma description_present_counterexample :
  Spec.first_meta "name" "description" Sample.blank_description_page
                  Sample.blank_description
  /\ field "description" (extract_meta Sample.blank_description_page "u")
     <> Spec.content Sample.blank_description.
Proof.
  split; [apply find_first_in; reflexivity|].
  vm_compute. discriminate.
Qed.

Lemma description_nonempty (soup : node) (url : string) (m : node) :
  Spec.first_meta "name" "description" soup m ->
  Str.truthy (Spec.content m) = true ->
  field "description" (extract_meta soup url) = Spec.content m.
Proof.
  intros Hm Hne. rewrite description_field, (get_meta_by_name_first _ _ _ Hm).
  now apply or_else_truthy.
Qed.

Lemma description_blank (soup : node) (url : string) (m : node) :
  Spec.first_meta "name" "description" soup m ->
  Spec.content m = EmptyString ->
  field "description" (extract_meta soup url)
  = get_meta_by_property soup "og:description".
Proof.
  intros Hm He. now rewrite description_field, (get_meta_by_name_first _ _ _ Hm), He.
Qed.

Lemma description_absent (soup : node) (url : string) :
  Spec.no_meta "name" "description" soup ->
  field "description" (extract_meta soup url)
  = get_meta_by_property soup "og:description".
Proof.
  intros Hno. now rewrite description_field, (get_meta_by_name_none _ _ Hno).
Qed.

(** C2, amended: [description] is the trimmed content of the first
    [<meta name="description">] when that is not empty; when the tag is
    absent or its trimmed content is empty, it is the trimmed content
    of the first [<meta property="og:description">], and empty without
    one. *)
Theorem description_precedence (soup : node) (url : string) :
  (forall m,
      Spec.first_meta "name" "description" soup m ->
      Str.truthy (Spec.content m) = true ->
      field "description" (extract_meta soup url) = Spec.content m)
  /\ (forall g,
         Spec.no_meta "name" "description" soup ->
         Spec.first_meta "property" "og:description" soup g ->
         field "description" (extract_meta soup url) = Spec.content g)
  /\ (forall m g,
         Spec.first_meta "name" "description" soup m ->
         Spec.content m = EmptyString ->
         Spec.first_meta "property" "og:description" soup g ->
         field "description" (extract_meta soup url) = Spec.content g)
  /\ (Spec.no_meta "name" "description" soup ->
      Spec.no_meta "property" "og:description" soup ->
      field "description" (extract_meta soup url) = EmptyString)
  /\ (forall m,
         Spec.first_meta "name" "description" soup m ->
         Spec.content m = EmptyString ->
         Spec.no_meta "property" "og:description" soup ->
         field "description" (extract_meta soup url) = EmptyString).
Proof.
  repeat split.
  - apply description_nonempty.
  - intros g Hno Hg. rewrite (description_absent _ _ Hno).
    apply (get_meta_by_property_first _ _ _ Hg).
  - intros m g Hm He Hg. rewrite (description_blank _ _ _ Hm He).
    apply (get_meta_by_property_first _ _ _ Hg).
  - intros Hn Hp. rewrite (description_absent _ _ Hn).
    apply (get_meta_by_property_none _ _ Hp).
  - intros m Hm He Hp. rewrite (description_blank _ _ _ Hm He).
    apply (get_meta_by_property_none _ _ Hp).
Qed.

Lemma description_precedence_witness :
  field "description" (extract_meta Sample.described_page "u") = "Hello"
  /\ field "description" (extract_meta Sample.og_only_page "u") = "From OG"
  /\ field "description" (extract_meta Sample.blank_only_page "u") = EmptyString.
Proof.
  split; [|split].
  - apply (proj1 (description_precedence Sample.described_page "u")
                 (Sample.meta_name "description" " Hello ")).
    + apply find_first_in; reflexivity.
    + reflexivity.
  - apply (proj1 (proj2 (description_precedence Sample.og_only_page "u"))
                 Sample.og_description).
    + reflexivity.
    + apply find_first_in; reflexivity.
  - apply (proj2 (proj2 (proj2 (proj2
             (description_precedence Sample.blank_only_page "u"))))
                 Sample.blank_description).
    + apply find_first_in; reflexivity.
    + reflexivity.
    + reflexivity.
Defined.





(** ** Meta-view document builder *)

Lemma str_app_assoc (a b c : string) : (a ++ b) ++ c = a ++ b ++ c.
Proof. induction a as [|x a IH]; simpl; [reflexivity|now rewrite IH]. Qed.

Lemma replace_char_app (c : ascii) (by_ a b : string) :
  Str.replace_char c by_ (a ++ b)
  = Str.replace_char c by_ a ++ Str.replace_char c by_ b.
Proof.
  induction a as [|x a IH]; simpl; [reflexivity|].
  destruct (Ascii.eqb x c); rewrite IH; [now rewrite str_app_assoc|reflexivity].
Qed.

Lemma replace_char_flat (c : ascii) (by_ : string) (f : ascii -> string) (s : string) :
  Str.replace_char c by_ (Str.flat_chars f s)
  = Str.flat_chars (fun d => Str.replace_char c by_ (f d)) s.
Proof.
  induction s as [|x s IH]; simpl; [reflexivity|].
  now rewrite replace_char_app, IH.
Qed.

Lemma flat_chars_ext (f g : ascii -> string) (s : string) :
  (forall c, f c = g c) -> Str.flat_chars f s = Str.flat_chars g s.
Proof.
  intros H; induction s as [|x s IH]; simpl; [reflexivity|now rewrite H, IH].
Qed.

Lemma flat_chars_single (s : string) :
  Str.flat_chars (fun c => String c EmptyString) s = s.
Proof. induction s as [|x s IH]; simpl; [reflexivity|now rewrite IH]. Qed.

(** The five replacements, one after the other, amount to replacing
    each character by its entity. *)
Lemma html_escape_chars (s : string) : html_escape s = Spec.escape_text s.
Proof.
  unfold html_escape, Spec.escape_text.
  rewrite <- (flat_chars_single s) at 1.
  rewrite !replace_char_flat.
  apply flat_chars_ext.
  intros [[] [] [] [] [] [] [] []]; reflexivity.
Qed.

Lemma escape_char_markup_free (c : ascii) :
  Spec.markup_free (Spec.escape_char c) = true.
Proof. destruct c as [[] [] [] [] [] [] [] []]; reflexivity. Qed.

Lemma html_escape_markup_free (s : string) :
  Spec.markup_free (html_escape s) = true.
Proof.
  rewrite html_escape_chars. unfold Spec.escape_text, Spec.markup_free.
  induction s as [|c s IH]; simpl; [reflexivity|].
  rewrite all_chars_app, IH, andb_true_r. apply escape_char_markup_free.
Qed.

(** C5: the meta-view document holds the escaped URL in its [<title>]
    and in its [<h1>] heading, and the escaped fragment inside
    [<pre><code>]; escaped text has every markup character replaced by
    its entity, so none of it is live markup. *)
Theorem meta_view_embeds_escaped_text :
  (exists a b c d : string,
      forall url meta_markup : string,
        build_meta_view_html url meta_markup
        = a ++ "<title>Meta tags - " ++ html_escape url ++ "</title>"
            ++ b ++ "<h1>Meta tags for " ++ html_escape url ++ "</h1>"
            ++ c ++ "<pre><code>" ++ html_escape meta_markup ++ "</code></pre>"
            ++ d)
  /\ (forall s : string,
         html_escape s = Spec.escape_text s
         /\ Spec.markup_free (html_escape s) = true).
Proof.
  split; [|intros s; split; [apply html_escape_chars|apply html_escape_markup_free]].
  set (a := String.substring 0 (String.length view_head - 19) view_head).
  set (b := String.substring 8 (String.length view_mid - 26) view_mid).
  set (c := String.substring 5 (String.length view_body - 16) view_body).
  set (d := String.substring 13 (String.length view_tail - 13) view_tail).
  exists a, b, c, d. intros url meta_markup.
  assert (Ha : view_head = a ++ "<title>Meta tags - ") by (vm_compute; reflexivity).
  assert (Hb : view_mid = "</title>" ++ b ++ "<h1>Meta tags for ")
    by (vm_compute; reflexivity).
  assert (Hc : view_body = "</h1>" ++ c ++ "<pre><code>") by (vm_compute; reflexivity).
  assert (Hd : view_tail = "</code></pre>" ++ d) by (vm_compute; reflexivity).
  unfold build_meta_view_html.
  rewrite Ha, Hb, Hc, Hd. clearbody a b c d.
  now rewrite !str_app_assoc.
Qed.

(** ** Head-markup collector *)

Section CollectorFacts.

Variable str_of_tag : node -> string.

Lemma fold_left_append (l : list node) (acc : list string) :
  fold_left (fun ls tag => (ls ++ [str_of_tag tag])%list) l acc
  = (acc ++ map str_of_tag l)%list.
Proof.
  revert acc; induction l as [|x l IH]; intros acc; simpl.
  - now rewrite app_nil_r.
  - now rewrite IH, <- app_assoc.
Qed.

Lemma link_step_allowed (acc : list string) (link : node) :
  link_step str_of_tag acc link
  = if Spec.allowed_rel link then (acc ++ [str_of_tag link])%list else acc.
Proof.
  unfold link_step, Spec.allowed_rel, Spec.rel_tokens.
  destruct (Dom.get_rel link) as [[[|t toks]|[|c s]]|]; reflexivity.
Qed.

Lemma fold_left_link_step (l : list node) (acc : list string) :
  fold_left (link_step str_of_tag) l acc
  = (acc ++ map str_of_tag (filter Spec.allowed_rel l))%list.
Proof.
  revert acc; induction l as [|x l IH]; intros acc; simpl.
  - now rewrite app_nil_r.
  - rewrite IH, link_step_allowed.
    destruct (Spec.allowed_rel x); simpl; [now rewrite <- app_assoc|reflexivity].
Qed.

(** C4: without a head the fragment is empty; with one it is the
    title first when the head has one, then every [<meta>] of the head
    in document order, then every [<link>] of the head in document
    order whose rel tokens meet the allow-set; a head with none of
    these gives the empty string. *)
Theorem head_markup_order (soup : node) :
  (Dom.find "head" soup = None ->
   collect_head_meta_markup str_of_tag soup = EmptyString)
  /\ (forall head,
         Dom.find "head" soup = Some head ->
         collect_head_meta_markup str_of_tag soup
         = Str.join Str.nl
             (match Dom.find "title" head with
              | Some title => [str_of_tag title]
              | None => []
              end
              ++ map str_of_tag (Dom.find_all "meta" head)
              ++ map str_of_tag
                   (filter Spec.allowed_rel (Dom.find_all "link" head)))%list)
  /\ (forall head,
         Dom.find "head" soup = Some head ->
         Dom.find "title" head = None ->
         Dom.find_all "meta" head = [] ->
         filter Spec.allowed_rel (Dom.find_all "link" head) = [] ->
         collect_head_meta_markup str_of_tag soup = EmptyString).
Proof.
  assert (Hmain : forall head,
             Dom.find "head" soup = Some head ->
             collect_head_meta_markup str_of_tag soup
             = Str.join Str.nl
                 (match Dom.find "title" head with
                  | Some title => [str_of_tag title]
                  | None => []
                  end
                  ++ map str_of_tag (Dom.find_all "meta" head)
                  ++ map str_of_tag
                       (filter Spec.allowed_rel (Dom.find_all "link" head)))%list).
  { intros head Hhead. unfold collect_head_meta_markup. rewrite Hhead.
    rewrite fold_left_link_step, fold_left_append.
    destruct (Dom.find "title" head); simpl; now rewrite <- ?app_assoc. }
  split; [|split].
  - intros Hnone. unfold collect_head_meta_markup. now rewrite Hnone.
  - exact Hmain.
  - intros head Hhead Ht Hm Hl. rewrite (Hmain head Hhead), Ht, Hm, Hl. reflexivity.
Qed.

End CollectorFacts.

Lemma head_markup_order_witness :
  collect_head_meta_markup Sample.show_tag Sample.head_page
  = "<title>" ++ Str.nl ++ "<meta>" ++ Str.nl ++ "<meta>" ++ Str.nl ++ "<link>"
  /\ collect_head_meta_markup Sample.show_tag Sample.bare_page = EmptyString
  /\ collect_head_meta_markup Sample.show_tag (Sample.title_tag "T") = EmptyString.
Proof.
  pose proof (head_markup_order Sample.show_tag Sample.head_page) as (_ & H1 & _).
  pose proof (head_markup_order Sample.show_tag Sample.bare_page) as (_ & _ & H2).
  pose proof (head_markup_order Sample.show_tag (Sample.title_tag "T")) as (H3 & _).
  split; [|split].
  - exact (H1 _ eq_refl).
  - exact (H2 _ eq_refl eq_refl eq_refl eq_refl).
  - exact (H3 eq_refl).
Defined.

(** ** Render geometry *)

Lemma viewport_height_clamp (z : Z) :
  viewport_height (JsInt z) = clamp (z + 100) 800 6000.
Proof.
  unfold viewport_height, clamp; simpl.
  destruct (Z.ltb_spec (z + 100) 800), (Z.ltb_spec 6000 (z + 100)); lia.
Qed.

Lemma viewport_height_range (v : script_value) :
  (800 <= viewport_height v <= 6000)%Z.
Proof. unfold viewport_height; destruct v; simpl; lia. Qed.

Lemma resize_measured (b : browser) (h : history) (v : script_value) :
  on_execute_script b h height_script = inr v ->
  fst (resize_to_content b h)
  = SetWindowSize 1920 (viewport_height v) :: ExecuteScript height_script :: h.
Proof.
  intros Hs. unfold resize_to_content, try_catch, bind, drv_execute_script.
  rewrite Hs. unfold drv_set_window_size, unit_answer.
  now destruct (on_set_window_size b _ _ _).
Qed.

Lemma resize_unmeasured (b : browser) (h : history) (e : exn) :
  on_execute_script b h height_script = inl e ->
  fst (resize_to_content b h) = ExecuteScript height_script :: h.
Proof.
  intros Hs. unfold resize_to_content, try_catch, bind, drv_execute_script.
  now rewrite Hs.
Qed.

Lemma resize_never_raises (b : browser) (h : history) :
  snd (resize_to_content b h) = inr tt.
Proof.
  unfold resize_to_content, try_catch, bind, drv_execute_script.
  destruct (on_execute_script b h height_script) as [e|v]; [reflexivity|].
  unfold drv_set_window_size, unit_answer.
  now destruct (on_set_window_size b _ _ _).
Qed.

(** The meta-view screenshot is taken right after the resize. *)
Lemma screenshot_follows_resize
      (str_of_tag : node -> string) (quote : string -> string)
      (path_join : string -> string -> string)
      (b : browser) (h : history) (url : string) (soup : node) (out_dir : string) :
  let data_url :=
    "data:text/html;charset=utf-8,"
      ++ quote (build_meta_view_html url (collect_head_meta_markup str_of_tag soup)) in
  on_get b h data_url = None ->
  fst (screenshot_meta_view str_of_tag quote path_join b url soup out_dir h)
  = SaveScreenshot (path_join out_dir (sanitize_filename url ++ "_meta.png"))
      :: fst (resize_to_content b (Get data_url :: h)).
Proof.
  intros data_url Hget.
  unfold screenshot_meta_view. fold data_url.
  unfold bind at 1. unfold drv_get at 1. rewrite Hget. cbn [unit_answer].
  unfold bind at 1.
  pose proof (resize_never_raises b (Get data_url :: h)) as Hr.
  destruct (resize_to_content b (Get data_url :: h)) as [h1 r]. simpl in Hr. subst r.
  unfold bind, drv_save_screenshot, unit_answer, ret. cbn [fst].
  now destruct (on_save_screenshot b h1 _).
Qed.

(** C3, as the specification states it, fails when the height query
    itself raises: the error is swallowed, but no size derived from the
    fallback 1200, nor any other, is sent to the browser. *)
Lemma measurement_failure_counterexample :
  on_execute_script Sample.unmeasurable_browser [] height_script
  = inl "JavascriptException"
  /\ fst (resize_to_content Sample.unmeasurable_browser [])
     = [ExecuteScript height_script]
  /\ ~ In (SetWindowSize 1920 (viewport_height JsOther))
          (fst (resize_to_content Sample.unmeasurable_browser []))
  /\ forall w ht : Z,
      ~ In (SetWindowSize w ht)
           (fst (resize_to_content Sample.unmeasurable_browser [])).
Proof.
  split; [reflexivity|]. split; [reflexivity|].
  assert (H : forall w ht : Z,
             ~ In (SetWindowSize w ht)
                  (fst (resize_to_content Sample.unmeasurable_browser []))).
  { intros w ht [Hin|[]]. discriminate Hin. }
  split; [apply H|exact H].
Qed.

(** C3, amended: for an integer measured height [z] the height sent to
    the browser is [clamp (z + 100) 800 6000]; a value that [int]
    rejects counts as 1200; the width sent is 1920 and the height is
    between 800 and 6000; when the height query itself raises, nothing
    is sent and the window keeps its size; in no case is the error
    passed on. *)
Theorem viewport_resize (b : browser) (h : history) :
  (forall z : Z, viewport_height (JsInt z) = clamp (z + 100) 800 6000)
  /\ viewport_height (JsInt 500) = 800%Z
  /\ viewport_height (JsInt 700) = 800%Z
  /\ viewport_height (JsInt 2000) = 2100%Z
  /\ viewport_height (JsInt 10000) = 6000%Z
  /\ viewport_height JsOther = clamp (1200 + 100) 800 6000
  /\ (forall v : script_value,
         on_execute_script b h height_script = inr v ->
         fst (resize_to_content b h)
         = SetWindowSize 1920 (viewport_height v)
             :: ExecuteScript height_script :: h)
  /\ (forall e : exn,
         on_execute_script b h height_script = inl e ->
         fst (resize_to_content b h) = ExecuteScript height_script :: h)
  /\ snd (resize_to_content b h) = inr tt
  /\ (forall w ht : Z,
         In (SetWindowSize w ht) (fst (resize_to_content b h)) ->
         In (SetWindowSize w ht) h
         \/ (w = 1920%Z /\ (800 <= ht <= 6000)%Z))
  /\ (forall (str_of_tag : node -> string) (quote : string -> string)
             (path_join : string -> string -> string)
             (url : string) (soup : node) (out_dir : string) (h0 : history),
         let data_url :=
           "data:text/html;charset=utf-8,"
             ++ quote (build_meta_view_html
                         url (collect_head_meta_markup str_of_tag soup)) in
         on_get b h0 data_url = None ->
         fst (screenshot_meta_view str_of_tag quote path_join b url soup out_dir h0)
         = SaveScreenshot (path_join out_dir (sanitize_filename url ++ "_meta.png"))
             :: fst (resize_to_content b (Get data_url :: h0))).
Proof.
  split; [apply viewport_height_clamp|].
  do 5 (split; [reflexivity|]).
  split; [apply resize_measured|].
  split; [apply resize_unmeasured|].
  split; [apply resize_never_raises|].
  split; [|intros; now apply screenshot_follows_resize].
  intros w ht Hin.
  destruct (on_execute_script b h height_script) as [e|v] eqn:Hs.
  - rewrite (resize_unmeasured _ _ _ Hs) in Hin.
    destruct Hin as [Hin|Hin]; [discriminate|now left].
  - rewrite (resize_measured _ _ _ Hs) in Hin.
    destruct Hin as [Hin|[Hin|Hin]]; [|discriminate|now left].
    injection Hin as <- <-. right. split; [reflexivity|apply viewport_height_range].
Qed.

Lemma viewport_resize_witness :
  fst (resize_to_content Sample.measuring_browser [])
  = [SetWindowSize 1920 2100; ExecuteScript height_script].
Proof.
  destruct (viewport_resize Sample.measuring_browser [])
    as (_ & _ & _ & _ & _ & _ & H & _).
  exact (H (JsInt 2000) eq_refl).
Defined.

(** ** The batch *)

(** The summary sends no command; it returns, or raises what [print]
    raised. *)
Lemma print_summary_cases (b : browser) (meta : record) (path : string) (h : history) :
  print_summary b meta path h = (h, inr tt)
  \/ exists e, print_summary b meta path h = (h, inl e).
Proof.
  unfold print_summary, bind, print_out, unit_answer, ret.
  repeat match goal with
         | |- context [on_print b h ?t] =>
             destruct (on_print b h t); [right; eauto|]
         | |- context [if ?c then _ else _] => destruct c
         end; now left.
Qed.

Lemma print_summary_quiet (b : browser) (meta : record) (path : string) (h : history) :
  (forall text, on_print b h text = None) ->
  print_summary b meta path h = (h, inr tt).
Proof.
  intros Hp. unfold print_summary, bind, print_out, unit_answer, ret.
  rewrite !Hp. destruct (Str.truthy _); now rewrite ?Hp.
Qed.

Lemma print_summary_first (b : browser) (meta : record) (path : string)
      (h : history) (e : exn) :
  on_print b h ("Title: " ++ field "title" meta) = Some e ->
  print_summary b meta path h = (h, inl e).
Proof.
  intros Hp. unfold print_summary, bind, print_out, unit_answer. now rewrite Hp.
Qed.

Section BatchFacts.

Variable str_of_tag : node -> string.
Variable quote : string -> string.
Variable path_join : string -> string -> string.
Variable b : browser.
Variable args : arguments.

#[local] Abbreviation process := (process_url str_of_tag quote path_join b args).
#[local] Abbreviation loop := (main_loop str_of_tag quote path_join b args).



(** One turn of the loop adds one record and goes on with the rest. *)
Lemma main_loop_step (url : string) (rest : list string)
      (acc : list record) (h : history) :
  loop (url :: rest) acc h
  = loop rest (acc ++ [Spec.record_of url (snd (process url h))])%list
         (fst (process url h)).
Proof.
  simpl. now destruct (process url h) as [h' [e|meta]].
Qed.





End BatchFacts.


(** ** Serializers *)

Lemma writerows_raises (fieldnames : list string) (rows : list record)
      (written : list (list string)) (r : record) :
  In r rows -> wrong_fields fieldnames r <> [] ->
  exists w e, writerows fieldnames rows written = CsvRaised w e.
Proof.
  revert written; induction rows as [|row rest IH]; intros written Hin Hbad.
  - destruct Hin.
  - simpl. unfold dict_to_list.
    destruct (wrong_fields fieldnames row) eqn:Hrow; [|eauto].
    destruct Hin as [->|Hin]; [congruence|]. now apply IH.
Qed.


(** C7: on a batch whose second URL fails, [write_csv] raises on the
    error variant after the header and the first row; with the failing
    URL first it raises on the metadata record.  [write_json] takes the
    same rows as they are. *)
Theorem write_csv_mixed_batch_raises :
  main Sample.show_tag Sample.no_quote Sample.join_path
       Sample.measuring_browser Sample.args
       ["https://a.example"; "https://bad.example"]
  = ([Sample.ok_record; Sample.error_record],
     CsvRaised
       [Spec.metadata_keys;
        ["https://a.example"; EmptyString; "Hello"; EmptyString; EmptyString;
         EmptyString; EmptyString; EmptyString;
         "shots/a.example.png"; "meta/a.example_meta.png"]]
       "ValueError: dict contains fields not in fieldnames")
  /\ write_csv [Sample.error_record; Sample.ok_record]
     = CsvRaised
         [Spec.error_keys;
          ["https://bad.example"; "WebDriverException: navigation failed";
           EmptyString]]
         "ValueError: dict contains fields not in fieldnames"
  /\ write_json [Sample.ok_record; Sample.error_record]
     = [Sample.ok_record; Sample.error_record].
Proof. split; [|split]; reflexivity. Qed.

(** * Further properties *)

(** ** Trimming *)

Lemma rstrip_cons (c : ascii) (r : string) :
  Str.rstrip (String c r)
  = match Str.rstrip r with
    | EmptyString => if Str.is_space c then EmptyString else String c EmptyString
    | String d r' => String c (String d r')
    end.
Proof. reflexivity. Qed.

Lemma rstrip_idem (s : string) : Str.rstrip (Str.rstrip s) = Str.rstrip s.
Proof.
  induction s as [|c s IH]; [reflexivity|].
  rewrite rstrip_cons. destruct (Str.rstrip s) as [|d r'] eqn:E.
  - destruct (Str.is_space c) eqn:Hc; [reflexivity|].
    rewrite rstrip_cons. simpl Str.rstrip. now rewrite Hc.
  - rewrite rstrip_cons, IH. reflexivity.
Qed.

Lemma rstrip_keeps_head (c : ascii) (r : string) :
  Str.is_space c = false -> exists x, Str.rstrip (String c r) = String c x.
Proof.
  intros Hc. rewrite rstrip_cons, Hc. destruct (Str.rstrip r); eauto.
Qed.

Lemma lstrip_shape (s : string) :
  Str.lstrip s = EmptyString
  \/ exists c r, Str.lstrip s = String c r /\ Str.is_space c = false.
Proof.
  induction s as [|c s IH]; [now left|]. simpl.
  destruct (Str.is_space c) eqn:Hc; [exact IH|right; eauto].
Qed.

Lemma strip_idem (s : string) : Str.strip (Str.strip s) = Str.strip s.
Proof.
  unfold Str.strip.
  destruct (lstrip_shape s) as [->|(c & r & -> & Hc)]; [reflexivity|].
  destruct (rstrip_keeps_head c r Hc) as [x Hx].
  assert (Hl : Str.lstrip (Str.rstrip (String c r)) = Str.rstrip (String c r))
    by (rewrite Hx; simpl; now rewrite Hc).
  rewrite Hl. apply rstrip_idem.
Qed.

(** ** URL list *)

Section UrlList.

Variable read_lines : string -> exn + list string.

Lemma parts_clean (item : string) : Forall Cli.clean (Cli.parts item).
Proof.
  unfold Cli.parts. apply Forall_forall. intros u Hu.
  apply in_map_iff in Hu as (x & <- & Hx).
  apply filter_In in Hx as [_ Hx]. split; [exact Hx|apply strip_idem].
Qed.

Lemma fold_parts (items : list string) (acc : list string) :
  fold_left (fun acc item => (acc ++ Cli.parts item)%list) items acc
  = (acc ++ flat_map Cli.parts items)%list.
Proof.
  revert acc; induction items as [|x l IH]; intros acc; simpl.
  - now rewrite app_nil_r.
  - now rewrite IH, app_assoc.
Qed.

Lemma fold_add_line_clean (lines : list string) (acc : list string) :
  Forall Cli.clean acc -> Forall Cli.clean (fold_left Cli.add_line lines acc).
Proof.
  revert acc; induction lines as [|x l IH]; intros acc Hacc; simpl; [exact Hacc|].
  apply IH. unfold Cli.add_line.
  destruct (Str.truthy (Str.strip x)) eqn:E; [|exact Hacc].
  apply Forall_app. split; [exact Hacc|].
  constructor; [|constructor]. split; [exact E|apply strip_idem].
Qed.

Lemma or_default_clean (found : list string) :
  Forall Cli.clean found ->
  Cli.or_default found <> [] /\ Forall Cli.clean (Cli.or_default found).
Proof.
  intros H. destruct found as [|u l]; simpl.
  - split; [discriminate|]. repeat constructor.
  - split; [discriminate|exact H].
Qed.

Lemma arg_urls_clean (given : option (list string)) :
  Forall Cli.clean
    match given with
    | Some ((_ :: _) as items) =>
        fold_left (fun acc item => (acc ++ Cli.parts item)%list) items []
    | _ => []
    end.
Proof.
  destruct given as [[|x l]|]; try constructor.
  rewrite fold_parts. cbn [app]. apply Forall_forall. intros u Hu.
  apply in_flat_map in Hu as (item & _ & Hu).
  exact (proj1 (Forall_forall _ _) (parts_clean item) u Hu).
Qed.

(** X1: whatever [load_urls] returns is a list that is not empty, and
    every URL in it is not empty and has no white space around it. *)
Theorem load_urls_clean (args : Cli.namespace) (found : list string) :
  Cli.load_urls read_lines args = inr found ->
  found <> [] /\ Forall (fun u => Str.truthy u = true /\ Str.strip u = u) found.
Proof.
  unfold Cli.load_urls. pose proof (arg_urls_clean (Cli.urls args)) as Hargs.
  destruct (Cli.input_file args) as [path|].
  - destruct (Str.truthy path).
    + destruct (read_lines path) as [e|lines]; [discriminate|].
      intros [= <-]. apply or_default_clean, fold_add_line_clean, Hargs.
    + intros [= <-]. apply or_default_clean, Hargs.
  - intros [= <-]. apply or_default_clean, Hargs.
Qed.

(** X2: [load_urls] fails only on an input file that cannot be read:
    the error is the one [open] raised for the path given. *)
Theorem load_urls_failure (args : Cli.namespace) (e : exn) :
  Cli.load_urls read_lines args = inl e <->
  exists path, Cli.input_file args = Some path
               /\ Str.truthy path = true /\ read_lines path = inl e.
Proof.
  unfold Cli.load_urls. split.
  - destruct (Cli.input_file args) as [path|]; [|discriminate].
    destruct (Str.truthy path) eqn:Hp; [|discriminate].
    destruct (read_lines path) as [e'|lines] eqn:Hr; [|discriminate].
    intros [= ->]. eauto.
  - intros (path & -> & -> & ->). reflexivity.
Qed.

Lemma split_nonempty (sep : ascii) (s : string) : Cli.split sep s <> [].
Proof.
  destruct s as [|c r]; simpl; [discriminate|].
  destruct (Ascii.eqb c sep); [discriminate|].
  destruct (Cli.split sep r); discriminate.
Qed.

Lemma split_sep_app (sep : ascii) (a b : string) :
  Cli.split sep (a ++ String sep b) = (Cli.split sep a ++ Cli.split sep b)%list.
Proof.
  induction a as [|c a IH]; simpl.
  - now rewrite Ascii.eqb_refl.
  - destruct (Ascii.eqb c sep); [now rewrite IH|].
    rewrite IH. pose proof (split_nonempty sep a) as Hne.
    destruct (Cli.split sep a) as [|x xs]; [contradiction|reflexivity].
Qed.

Lemma parts_comma (a b : string) :
  Cli.parts (a ++ "," ++ b) = (Cli.parts a ++ Cli.parts b)%list.
Proof.
  unfold Cli.parts. change ("," ++ b) with (String ","%char b).
  now rewrite split_sep_app, filter_app, map_app.
Qed.

(** X3: two URLs joined by a comma in one [--url] value are read as
    the same two URLs passed in two [--url] values. *)
Theorem load_urls_comma (a b : string) (rest : list string) (file : option string) :
  Cli.load_urls read_lines (Cli.mkNamespace (Some ((a ++ "," ++ b) :: rest)) file)
  = Cli.load_urls read_lines (Cli.mkNamespace (Some (a :: b :: rest)) file).
Proof.
  unfold Cli.load_urls. cbn [Cli.urls Cli.input_file].
  rewrite !fold_parts. cbn [flat_map]. now rewrite parts_comma, <- app_assoc.
Qed.

End UrlList.

Lemma load_urls_clean_witness :
  Cli.load_urls Sample2.one_file
    (Cli.mkNamespace (Some [" https://c.example , ,https://d.example"])
                     (Some "urls.txt"))
  = inr ["https://c.example"; "https://d.example";
         "https://a.example"; "https://b.example"]
  /\ ["https://c.example"; "https://d.example";
      "https://a.example"; "https://b.example"] <> [].
Proof.
  split; [reflexivity|].
  exact (proj1 (load_urls_clean Sample2.one_file
                  (Cli.mkNamespace (Some [" https://c.example , ,https://d.example"])
                                   (Some "urls.txt"))
                  _ eq_refl)).
Defined.

Lemma load_urls_failure_witness :
  Cli.load_urls Sample2.one_file (Cli.mkNamespace None (Some "missing.txt"))
  = inl "FileNotFoundError".
Proof.
  apply (proj2 (load_urls_failure Sample2.one_file
                  (Cli.mkNamespace None (Some "missing.txt")) "FileNotFoundError")).
  exists "missing.txt". repeat split.
Defined.

(** ** Extracted values *)

Lemma strip_empty : Str.strip EmptyString = EmptyString.
Proof. reflexivity. Qed.

Lemma get_meta_by_name_trimmed (soup : node) (name : string) :
  Str.strip (get_meta_by_name soup name) = get_meta_by_name soup name.
Proof.
  unfold get_meta_by_name.
  destruct (Dom.find_attr "meta" "name" name soup); [apply strip_idem|reflexivity].
Qed.

Lemma get_meta_by_property_trimmed (soup : node) (prop : string) :
  Str.strip (get_meta_by_property soup prop) = get_meta_by_property soup prop.
Proof.
  unfold get_meta_by_property.
  destruct (Dom.find_attr "meta" "property" prop soup); [apply strip_idem|reflexivity].
Qed.

Lemma get_canonical_trimmed (soup : node) :
  Str.strip (get_canonical soup) = get_canonical soup.
Proof.
  rewrite get_canonical_find. unfold Spec.href.
  destruct (List.find _ _); [apply strip_idem|reflexivity].
Qed.

Lemma title_text_trimmed (soup : node) :
  Str.strip (title_text soup) = title_text soup.
Proof.
  unfold title_text.
  destruct (Dom.find "title" soup) as [t|]; [|reflexivity].
  destruct (Dom.string_of t) as [s|]; [|reflexivity].
  destruct (Str.truthy s); [apply strip_idem|reflexivity].
Qed.

(** X4: every value that [extract_meta] takes from the document is
    trimmed: trimming [title], [description], [keywords], [canonical],
    [og:title], [og:url] or [robots] again changes nothing. *)
Theorem extract_meta_trimmed (soup : node) (url key : string) :
  In key ["title"; "description"; "keywords"; "canonical";
          "og:title"; "og:url"; "robots"] ->
  Str.strip (field key (extract_meta soup url)) = field key (extract_meta soup url).
Proof.
  intros Hk. simpl in Hk.
  destruct Hk as [<-|[<-|[<-|[<-|[<-|[<-|[<-|[]]]]]]]].
  - apply title_text_trimmed.
  - rewrite description_field. unfold Str.or_else.
    destruct (Str.truthy _);
      [apply get_meta_by_name_trimmed|apply get_meta_by_property_trimmed].
  - apply get_meta_by_name_trimmed.
  - apply get_canonical_trimmed.
  - apply get_meta_by_property_trimmed.
  - apply get_meta_by_property_trimmed.
  - apply get_meta_by_name_trimmed.
Qed.

Lemma extract_meta_trimmed_witness :
  Str.strip (field "canonical" (extract_meta Sample.canonical_page "u"))
  = field "canonical" (extract_meta Sample.canonical_page "u").
Proof.
  apply (extract_meta_trimmed Sample.canonical_page "u" "canonical").
  simpl. tauto.
Defined.

Lemma find_no_name {A} (p q : A -> bool) (l : list A) :
  (forall x, In x l -> p x = false) ->
  List.find (fun x => p x && q x) l = None.
Proof.
  intros H. induction l as [|a l IH]; [reflexivity|]. simpl.
  rewrite (H a (or_introl eq_refl)). simpl. apply IH. intros x Hx. apply H. now right.
Qed.

Lemma filter_no_name {A} (p : A -> bool) (l : list A) :
  (forall x, In x l -> p x = false) -> filter p l = [].
Proof.
  intros H. induction l as [|a l IH]; [reflexivity|]. simpl.
  rewrite (H a (or_introl eq_refl)). apply IH. intros x Hx. apply H. now right.
Qed.

(** X5: tags that are not there give empty fields, not errors: without
    any [<meta>] the five meta fields are empty, without any [<link>]
    [canonical] is empty. *)
Theorem extract_meta_absent (soup : node) (url : string) :
  ((forall n, In n (Dom.descendants soup) -> Dom.has_name "meta" n = false) ->
   forall key, In key ["description"; "keywords"; "og:title"; "og:url"; "robots"] ->
               field key (extract_meta soup url) = EmptyString)
  /\ ((forall n, In n (Dom.descendants soup) -> Dom.has_name "link" n = false) ->
      field "canonical" (extract_meta soup url) = EmptyString).
Proof.
  split.
  - intros Hno key Hk.
    assert (Hn : forall name, get_meta_by_name soup name = EmptyString).
    { intros name. unfold get_meta_by_name, Dom.find_attr.
      now rewrite (find_no_name _ _ _ Hno). }
    assert (Hp : forall prop, get_meta_by_property soup prop = EmptyString).
    { intros prop. unfold get_meta_by_property, Dom.find_attr.
      now rewrite (find_no_name _ _ _ Hno). }
    simpl in Hk. destruct Hk as [<-|[<-|[<-|[<-|[<-|[]]]]]].
    + now rewrite description_field, Hn, Hp.
    + apply Hn.
    + apply Hp.
    + apply Hp.
    + apply Hn.
  - intros Hno. change (get_canonical soup = EmptyString).
    unfold get_canonical, Dom.find_all. now rewrite (filter_no_name _ _ Hno).
Qed.

Lemma extract_meta_absent_witness :
  field "canonical" (extract_meta Sample.og_only_page "u") = EmptyString.
Proof.
  apply (proj2 (extract_meta_absent Sample.og_only_page "u")).
  intros n Hn. simpl in Hn.
  repeat (destruct Hn as [<-|Hn]; [reflexivity|]). destruct Hn.
Defined.

(** X6: [title] is the trimmed text of the first [<title>] when that
    tag holds exactly one string; a [<title>] that is empty or holds
    more than one child gives the empty title, and so does a document
    without [<title>]. *)
Theorem title_text_cases (soup : node) (url : string) :
  (Dom.find "title" soup = None ->
   field "title" (extract_meta soup url) = EmptyString)
  /\ (forall name rel attrs s,
         Dom.find "title" soup = Some (Tag name rel attrs [NavigableString s]) ->
         field "title" (extract_meta soup url) = Str.strip s)
  /\ (forall name rel attrs,
         Dom.find "title" soup = Some (Tag name rel attrs []) ->
         field "title" (extract_meta soup url) = EmptyString)
  /\ (forall name rel attrs c1 c2 cs,
         Dom.find "title" soup = Some (Tag name rel attrs (c1 :: c2 :: cs)) ->
         field "title" (extract_meta soup url) = EmptyString).
Proof.
  change (field "title" (extract_meta soup url)) with (title_text soup).
  unfold title_text. repeat split.
  - now intros ->.
  - intros name rel attrs s ->. simpl. now destruct s.
  - now intros name rel attrs ->.
  - now intros name rel attrs c1 c2 cs ->.
Qed.

Lemma title_text_cases_witness :
  field "title" (extract_meta Sample.duplicate_keywords_page "u") = "T"
  /\ field "title" (extract_meta Sample2.mixed_title_page "u") = EmptyString.
Proof.
  destruct (title_text_cases Sample.duplicate_keywords_page "u") as (_ & H1 & _).
  destruct (title_text_cases Sample2.mixed_title_page "u") as (_ & _ & _ & H2).
  split.
  - exact (H1 "title" None [] "T" eq_refl).
  - exact (H2 "title" None [] _ _ _ eq_refl).
Defined.

(** ** File names *)

Lemma replace_slash_then_underscore (s : string) :
  Str.map_chars underscore_unsafe (Str.replace_char "/"%char "_" s)
  = Str.map_chars underscore_unsafe s.
Proof.
  induction s as [|c s IH]; [reflexivity|]. simpl.
  destruct (Ascii.eqb_spec c "/"%char) as [->|_]; simpl; now rewrite IH.
Qed.

Lemma map_chars_length (f : ascii -> ascii) (s : string) :
  String.length (Str.map_chars f s) = String.length s.
Proof. induction s as [|c s IH]; simpl; [reflexivity|now rewrite IH]. Qed.

(** X7: an [http://] URL and the [https://] URL with the same rest get
    the same file name, so their screenshots share one file. *)
Theorem sanitize_filename_scheme_blind (rest : string) :
  sanitize_filename ("http://" ++ rest) = sanitize_filename ("https://" ++ rest).
Proof.
  assert (H1 : strip_scheme ("http://" ++ rest) = rest)
    by (destruct rest; reflexivity).
  assert (H2 : strip_scheme ("https://" ++ rest) = rest)
    by (destruct rest; reflexivity).
  unfold sanitize_filename. now rewrite H1, H2.
Qed.

(** X8: apart from the scheme, [sanitize_filename] works character by
    character: the name is the URL without its scheme with every unsafe
    character turned into one underscore, so it is as long as that
    URL; only an empty rest gives the fallback. *)
Theorem sanitize_filename_charwise (url : string) :
  sanitize_filename url
  = Str.or_else (Str.map_chars underscore_unsafe (strip_scheme url)) "screenshot"
  /\ (strip_scheme url <> EmptyString ->
      String.length (sanitize_filename url) = String.length (strip_scheme url))
  /\ (strip_scheme url = EmptyString -> sanitize_filename url = "screenshot").
Proof.
  unfold sanitize_filename. rewrite replace_slash_then_underscore.
  split; [reflexivity|]. split.
  - intros Hne. destruct (strip_scheme url) as [|c r]; [contradiction|].
    simpl. now rewrite map_chars_length.
  - now intros ->.
Qed.

Lemma sanitize_filename_charwise_witness :
  String.length (sanitize_filename "https://a.example/x?y=1")
  = String.length (strip_scheme "https://a.example/x?y=1").
Proof.
  apply (proj1 (proj2 (sanitize_filename_charwise "https://a.example/x?y=1"))).
  discriminate.
Defined.

(** ** Escaped text *)

Lemma unescape_escape_char (c : ascii) (rest : string) :
  Inverse.unescape (Spec.escape_char c ++ rest) = String c (Inverse.unescape rest).
Proof. destruct c as [[] [] [] [] [] [] [] []]; reflexivity. Qed.

Lemma unescape_escape_text (s : string) :
  Inverse.unescape (Spec.escape_text s) = s.
Proof.
  unfold Spec.escape_text. induction s as [|c s IH]; [reflexivity|].
  simpl. now rewrite unescape_escape_char, IH.
Qed.

Lemma html_escape_injective (s t : string) :
  html_escape s = html_escape t -> s = t.
Proof.
  intros H. apply (f_equal Inverse.unescape) in H.
  now rewrite !html_escape_chars, !unescape_escape_text in H.
Qed.

(** X9: [html_escape] loses nothing: reading the five entities back
    gives the text it was given, so two texts are escaped alike only
    when they are the same text. *)
Theorem html_escape_round_trip :
  (forall s : string, Inverse.unescape (html_escape s) = s)
  /\ (forall s t : string, html_escape s = html_escape t -> s = t).
Proof.
  split; [|apply html_escape_injective].
  intros s. rewrite html_escape_chars. apply unescape_escape_text.
Qed.

Lemma str_app_length (a b : string) :
  String.length (a ++ b) = String.length a + String.length b.
Proof. induction a as [|c a IH]; simpl; [reflexivity|now rewrite IH]. Qed.

Lemma str_app_inv_head (a x y : string) : a ++ x = a ++ y -> x = y.
Proof.
  induction a as [|c a IH]; simpl; [auto|]. intros [= H]. auto.
Qed.

Lemma str_app_inv_tail (t x y : string) : x ++ t = y ++ t -> x = y.
Proof.
  revert y; induction x as [|c x IH]; intros [|d y] H; simpl in H.
  - reflexivity.
  - apply (f_equal String.length) in H. simpl in H.
    rewrite str_app_length in H. lia.
  - apply (f_equal String.length) in H. simpl in H.
    rewrite str_app_length in H. lia.
  - injection H as -> H. f_equal. auto.
Qed.

(** X10: for one URL, two different head fragments never give the same
    meta-view document. *)
Theorem build_meta_view_html_injective (url m1 m2 : string) :
  build_meta_view_html url m1 = build_meta_view_html url m2 -> m1 = m2.
Proof.
  unfold build_meta_view_html. intros H.
  do 5 apply str_app_inv_head in H.
  apply str_app_inv_tail in H. now apply html_escape_injective.
Qed.

Lemma build_meta_view_html_injective_witness :
  build_meta_view_html "u" "<title>" = build_meta_view_html "u" "<title>"
  /\ "<title>" = "<title>".
Proof.
  split; [reflexivity|].
  exact (build_meta_view_html_injective "u" "<title>" "<title>" eq_refl).
Defined.

(** ** Viewport *)

(** X11: the height sent grows with the height measured; content of at
    most 5900 fits with its margin of 100, taller content is cut at
    6000. *)
Theorem viewport_height_fits (z1 z2 : Z) :
  ((z1 <= z2)%Z -> (viewport_height (JsInt z1) <= viewport_height (JsInt z2))%Z)
  /\ ((z1 <= 5900)%Z -> (z1 + 100 <= viewport_height (JsInt z1))%Z)
  /\ ((5900 < z1)%Z -> viewport_height (JsInt z1) = 6000%Z).
Proof. unfold viewport_height; simpl. lia. Qed.

Lemma viewport_height_fits_witness :
  (viewport_height (JsInt 1000) <= viewport_height (JsInt 7000))%Z.
Proof.
  apply (proj1 (viewport_height_fits 1000 7000)). lia.
Defined.

(** ** One URL *)

Section ProcessFacts.

Variable str_of_tag : node -> string.
Variable quote : string -> string.
Variable path_join : string -> string -> string.
Variable b : browser.
Variable args : arguments.

#[local] Abbreviation process1 := (process_url str_of_tag quote path_join b args).
#[local] Abbreviation meta_view := (screenshot_meta_view str_of_tag quote path_join b).

(** X12: a failure ends the work on a URL at the failing call: after
    a navigation that raises nothing more is done; after a
    [time.sleep] that raises, as it does on a negative delay, no
    screenshot is taken; after a screenshot that raises the page source
    is not read; and a page source that raises is the last command. *)
Theorem process_url_stops_at_failure (url : string) (h : history) (e : exn) :
  let shot := path_join (screenshots_dir args) (sanitize_filename url ++ ".png") in
  (on_get b h url = Some e -> process1 url h = (Get url :: h, inl e))
  /\ (on_get b h url = None ->
      on_sleep b (Get url :: h) (delay_seconds args) = Some e ->
      process1 url h = (Get url :: h, inl e))
  /\ (on_get b h url = None ->
      on_sleep b (Get url :: h) (delay_seconds args) = None ->
      on_save_screenshot b (Get url :: h) shot = Some e ->
      process1 url h = (SaveScreenshot shot :: Get url :: h, inl e))
  /\ (on_get b h url = None ->
      on_sleep b (Get url :: h) (delay_seconds args) = None ->
      on_save_screenshot b (Get url :: h) shot = None ->
      on_page_source b (SaveScreenshot shot :: Get url :: h) = inl e ->
      process1 url h = (PageSource :: SaveScreenshot shot :: Get url :: h, inl e)).
Proof.
  intros shot. unfold process_url, bind, drv_get, py_sleep, drv_save_screenshot,
    drv_page_source, unit_answer. fold shot.
  split; [|split; [|split]].
  - now intros ->.
  - now intros -> ->.
  - now intros -> -> ->.
  - now intros -> -> -> ->.
Qed.

Lemma meta_view_path (url : string) (soup : node) (out_dir : string)
      (h h' : history) (p : string) :
  meta_view url soup out_dir h = (h', inr p) ->
  p = path_join out_dir (sanitize_filename url ++ "_meta.png").
Proof.
  unfold screenshot_meta_view, bind, drv_get, drv_save_screenshot, unit_answer, ret.
  destruct (on_get b h _); [discriminate|].
  destruct (resize_to_content b _) as [h1 [e|[]]]; [discriminate|].
  destruct (on_save_screenshot b h1 _); [discriminate|].
  now intros [= _ <-].
Qed.

(** What is left of [process_url] once the page is loaded, the delay
    slept, the page captured and read. *)
Lemma process_url_after_read (url : string) (h : history) (soup : node) :
  let shot := path_join (screenshots_dir args) (sanitize_filename url ++ ".png") in
  let h3 := PageSource :: SaveScreenshot shot :: Get url :: h in
  let view := meta_view url soup (meta_screenshots_dir args) h3 in
  let meta :=
    dict_set (dict_set (extract_meta soup url) "screenshot" shot)
             "meta_screenshot"
             match snd view with inr p => p | inl _ => EmptyString end in
  on_get b h url = None ->
  on_sleep b (Get url :: h) (delay_seconds args) = None ->
  on_save_screenshot b (Get url :: h) shot = None ->
  on_page_source b (SaveScreenshot shot :: Get url :: h) = inr soup ->
  process1 url h
  = match print_summary b meta shot (fst view) with
    | (h5, inr _) => (h5, inr meta)
    | (h5, inl e) => (h5, inl e)
    end.
Proof.
  intros shot h3 view meta Hget Hsleep Hsave Hsrc.
  unfold process_url, bind at 1, drv_get at 1. rewrite Hget. cbn [unit_answer].
  unfold bind at 1, py_sleep at 1. rewrite Hsleep. cbn [unit_answer].
  fold shot. unfold bind at 1, drv_save_screenshot at 1. rewrite Hsave.
  cbn [unit_answer]. unfold bind at 1, drv_page_source. rewrite Hsrc.
  fold h3. unfold bind at 1, try_catch. fold view. subst meta.
  destruct view as [h4 [e|p]]; cbn [fst snd]; unfold ret at 1; unfold bind;
    now destruct (print_summary b _ shot h4) as [h5 [e'|[]]].
Qed.

(** X13: once the page is loaded, the delay slept, the page captured
    and read, and as long as the summary can be printed, the URL gets
    its metadata record whatever happens to the meta view: the eight
    extracted fields are those of [extract_meta], [screenshot] is the
    page screenshot path, and [meta_screenshot] is the meta-view path,
    or empty when the meta view raised.  When the first line of the
    summary cannot be printed, the URL gets the error variant instead. *)
Theorem process_url_meta_view_isolated (url : string) (h : history) (soup : node) :
  let shot := path_join (screenshots_dir args) (sanitize_filename url ++ ".png") in
  let h3 := PageSource :: SaveScreenshot shot :: Get url :: h in
  let view := meta_view url soup (meta_screenshots_dir args) h3 in
  on_get b h url = None ->
  on_sleep b (Get url :: h) (delay_seconds args) = None ->
  on_save_screenshot b (Get url :: h) shot = None ->
  on_page_source b (SaveScreenshot shot :: Get url :: h) = inr soup ->
  ((forall text, on_print b (fst view) text = None) ->
   exists meta,
     process1 url h = (fst view, inr meta)
     /\ (forall key,
            In key ["url"; "title"; "description"; "keywords"; "canonical";
                    "og:title"; "og:url"; "robots"] ->
            field key meta = field key (extract_meta soup url))
     /\ field "screenshot" meta = shot
     /\ field "meta_screenshot" meta
        = match snd view with
          | inr _ => path_join (meta_screenshots_dir args)
                               (sanitize_filename url ++ "_meta.png")
          | inl _ => EmptyString
          end)
  /\ (forall e,
         on_print b (fst view) ("Title: " ++ field "title" (extract_meta soup url))
         = Some e ->
         process1 url h = (fst view, inl e)).
Proof.
  intros shot h3 view Hget Hsleep Hsave Hsrc.
  rewrite (process_url_after_read url h soup Hget Hsleep Hsave Hsrc).
  fold shot h3 view. split.
  - intros Hprint. rewrite (print_summary_quiet _ _ _ _ Hprint).
    eexists. split; [reflexivity|]. split; [|split].
    + intros key Hk. simpl in Hk.
      destruct Hk as [<-|[<-|[<-|[<-|[<-|[<-|[<-|[<-|[]]]]]]]]]; reflexivity.
    + reflexivity.
    + destruct view as [h4 [e|p]] eqn:Hm; cbn [snd]; [reflexivity|].
      rewrite <- (meta_view_path _ _ _ _ _ _ Hm). reflexivity.
  - intros e Hprint.
    match goal with
    | |- context [print_summary b ?m ?p0 ?h0] =>
        now rewrite (print_summary_first b m p0 h0 e Hprint)
    end.
Qed.

End ProcessFacts.

Lemma process_url_stops_at_failure_witness :
  process_url Sample.show_tag Sample.no_quote Sample.join_path
              Sample2.dead_browser Sample.args "https://a.example" []
  = ([Get "https://a.example"], inl "WebDriverException: unreachable")
  /\ process_url Sample.show_tag Sample.no_quote Sample.join_path
                 Sample2.reliable_browser Sample2.negative_delay
                 "https://a.example" []
     = ([Get "https://a.example"],
        inl "ValueError: sleep length must be non-negative").
Proof.
  split.
  - exact (proj1 (process_url_stops_at_failure
                    Sample.show_tag Sample.no_quote Sample.join_path
                    Sample2.dead_browser Sample.args "https://a.example" []
                    "WebDriverException: unreachable") eq_refl).
  - exact (proj1 (proj2 (process_url_stops_at_failure
                    Sample.show_tag Sample.no_quote Sample.join_path
                    Sample2.reliable_browser Sample2.negative_delay
                    "https://a.example" []
                    "ValueError: sleep length must be non-negative"))
                 eq_refl eq_refl).
Defined.

Lemma process_url_meta_view_isolated_witness :
  (exists meta,
      snd (process_url Sample.show_tag Sample.no_quote Sample.join_path
                       Sample2.no_data_url_browser Sample.args "https://a.example" [])
      = inr meta
      /\ field "screenshot" meta = "shots/a.example.png"
      /\ field "meta_screenshot" meta = EmptyString)
  /\ snd (process_url Sample.show_tag Sample.no_quote Sample.join_path
                      Sample2.mute_browser Sample.args "https://a.example" [])
     = inl "UnicodeEncodeError".
Proof.
  split.
  - destruct (proj1 (process_url_meta_view_isolated
                Sample.show_tag Sample.no_quote Sample.join_path
                Sample2.no_data_url_browser Sample.args "https://a.example" []
                Sample.described_page eq_refl eq_refl eq_refl eq_refl)
                (fun _ => eq_refl))
      as (meta & Hp & _ & Hs & Hm).
    exists meta. rewrite Hp. split; [reflexivity|]. split; [exact Hs|exact Hm].
  - rewrite (proj2 (process_url_meta_view_isolated
                Sample.show_tag Sample.no_quote Sample.join_path
                Sample2.mute_browser Sample.args "https://a.example" []
                Sample.described_page eq_refl eq_refl eq_refl eq_refl)
                "UnicodeEncodeError" eq_refl).
    reflexivity.
Defined.

(** ** CSV rows *)

Lemma str_in_member (k : string) (keys : list string) :
  In k keys -> str_in k keys = true.
Proof.
  unfold str_in. intros H. apply existsb_exists. exists k.
  split; [exact H|apply String.eqb_refl].
Qed.

Lemma wrong_fields_own (row : record) : wrong_fields (dict_keys row) row = [].
Proof.
  unfold wrong_fields. apply filter_no_name.
  intros k Hk. now rewrite (str_in_member _ _ Hk).
Qed.

Lemma writerows_written (fieldnames : list string) (rows : list record)
      (written : list (list string)) :
  (forall r, In r rows -> wrong_fields fieldnames r = []) ->
  writerows fieldnames rows written
  = CsvWritten (written ++ map (fun r => map (fun key => field key r) fieldnames) rows).
Proof.
  revert written; induction rows as [|row rest IH]; intros written Hall; simpl.
  - now rewrite app_nil_r.
  - unfold dict_to_list. rewrite (Hall row (or_introl eq_refl)).
    rewrite IH by (intros r Hr; apply Hall; now right).
    now rewrite <- app_assoc.
Qed.

(** X14: [write_csv] gets through exactly when no later row has a key
    that the first row lacks.  It then writes the first row's keys as
    header and one line per row, in order, with the empty string where
    a row lacks a key; otherwise it raises. *)
Theorem write_csv_outcome (first : record) (rest : list record) :
  ((forall r, In r rest -> wrong_fields (dict_keys first) r = []) ->
   write_csv (first :: rest)
   = CsvWritten
       (dict_keys first
          :: map (fun r => map (fun key => field key r) (dict_keys first))
                 (first :: rest)))
  /\ (forall r, In r rest -> wrong_fields (dict_keys first) r <> [] ->
                exists written e, write_csv (first :: rest) = CsvRaised written e).
Proof.
  split.
  - intros Hall. unfold write_csv. rewrite writerows_written; [reflexivity|].
    intros r [<-|Hr]; [apply wrong_fields_own|now apply Hall].
  - intros r Hr Hbad. unfold write_csv.
    apply (writerows_raises _ _ _ r); [now right|exact Hbad].
Qed.

Lemma write_csv_outcome_witness :
  write_csv [Sample.error_record; [("url", "https://b.example")]]
  = CsvWritten
      [["url"; "error"; "screenshot"];
       ["https://bad.example"; "WebDriverException: navigation failed"; EmptyString];
       ["https://b.example"; EmptyString; EmptyString]].
Proof.
  apply (proj1 (write_csv_outcome Sample.error_record [[("url", "https://b.example")]])).
  intros r [<-|[]]. reflexivity.
Defined.

(** ** Whole batches *)

Section BatchOutcomes.

Variable str_of_tag : node -> string.
Variable quote : string -> string.
Variable path_join : string -> string -> string.
Variable b : browser.
Variable args : arguments.

#[local] Abbreviation process2 := (process_url str_of_tag quote path_join b args).
#[local] Abbreviation loop2 := (main_loop str_of_tag quote path_join b args).








End BatchOutcomes.


(** ** The whole run *)

Lemma snq_ret {A} (a : A) : sends_no_quit (ret a).
Proof. intros h. exists []. split; [reflexivity|intros []]. Qed.

Lemma snq_bind {A B} (m : M A) (k : A -> M B) :
  sends_no_quit m -> (forall a, sends_no_quit (k a)) -> sends_no_quit (bind m k).
Proof.
  intros Hm Hk h. unfold bind. destruct (Hm h) as (cs & Hcs & Hq).
  destruct (m h) as [h' [e|a]]; cbn [fst] in *; [eauto|].
  destruct (Hk a h') as (cs' & Hcs' & Hq'). subst h'.
  exists (cs' ++ cs)%list. split; [now rewrite Hcs', app_assoc|].
  intros Hin. apply in_app_or in Hin as [|]; auto.
Qed.

Lemma snq_try {A} (m : M A) (handler : exn -> M A) :
  sends_no_quit m -> (forall e, sends_no_quit (handler e)) ->
  sends_no_quit (try_catch m handler).
Proof.
  intros Hm Hk h. unfold try_catch. destruct (Hm h) as (cs & Hcs & Hq).
  destruct (m h) as [h' [e|a]]; cbn [fst] in *; [|eauto].
  destruct (Hk e h') as (cs' & Hcs' & Hq'). subst h'.
  exists (cs' ++ cs)%list. split; [now rewrite Hcs', app_assoc|].
  intros Hin. apply in_app_or in Hin as [|]; auto.
Qed.

Lemma snq_one {A} (c : command) (answer : history -> exn + A) :
  c <> Quit -> sends_no_quit (fun h => (c :: h, answer h)).
Proof.
  intros Hc h. exists [c]. split; [reflexivity|].
  intros [H|[]]. now apply Hc.
Qed.

Lemma snq_silent {A} (answer : history -> exn + A) :
  sends_no_quit (fun h => (h, answer h)).
Proof. intros h. exists []. split; [reflexivity|intros []]. Qed.

Section RunFacts.

Variable str_of_tag : node -> string.
Variable quote : string -> string.
Variable path_join : string -> string -> string.
Variable b : browser.
Variable args : arguments.

#[local] Abbreviation loop3 := (main_loop str_of_tag quote path_join b args).

Lemma snq_resize : sends_no_quit (resize_to_content b).
Proof.
  unfold resize_to_content. apply snq_try; [|intros; apply snq_ret].
  apply snq_bind; [apply snq_one; discriminate|].
  intros v. apply snq_one. discriminate.
Qed.

Lemma snq_meta_view (url : string) (soup : node) (out_dir : string) :
  sends_no_quit (screenshot_meta_view str_of_tag quote path_join b url soup out_dir).
Proof.
  unfold screenshot_meta_view.
  apply snq_bind; [apply snq_one; discriminate|]. intros _.
  apply snq_bind; [apply snq_resize|]. intros _.
  apply snq_bind; [apply snq_one; discriminate|]. intros _. apply snq_ret.
Qed.

Lemma snq_print_summary (meta : record) (path : string) :
  sends_no_quit (print_summary b meta path).
Proof.
  intros h. exists []. split; [|intros []].
  now destruct (print_summary_cases b meta path h) as [->|[e ->]].
Qed.

Lemma snq_process (url : string) :
  sends_no_quit (process_url str_of_tag quote path_join b args url).
Proof.
  unfold process_url.
  apply snq_bind; [apply snq_one; discriminate|]. intros _.
  apply snq_bind; [apply snq_silent|]. intros _.
  apply snq_bind; [apply snq_one; discriminate|]. intros _.
  apply snq_bind; [apply snq_one; discriminate|]. intros soup.
  apply snq_bind;
    [apply snq_try; [apply snq_meta_view|intros; apply snq_ret]|].
  intros path.
  apply snq_bind; [apply snq_print_summary|intros; apply snq_ret].
Qed.

Lemma main_loop_no_quit (url_list : list string) (acc : list record) (h : history) :
  exists cs, fst (loop3 url_list acc h) = (cs ++ h)%list /\ ~ In Quit cs.
Proof.
  revert acc h; induction url_list as [|url rest IH]; intros acc h.
  - exists []. split; [reflexivity|intros []].
  - rewrite main_loop_step.
    destruct (snq_process url h) as (cs & Hcs & Hq).
    destruct (IH (acc ++ [Spec.record_of url
                            (snd (process_url str_of_tag quote path_join b args url h))])%list
                 (fst (process_url str_of_tag quote path_join b args url h)))
      as (cs' & Hcs' & Hq').
    exists (cs' ++ cs)%list. split; [now rewrite Hcs', Hcs, app_assoc|].
    intros Hin. apply in_app_or in Hin as [|]; auto.
Qed.

Lemma run_main_commands (url_list : list string) :
  commands (run_main str_of_tag quote path_join (DriverReady b) args url_list)
  = Quit :: fst (loop3 url_list [] []).
Proof.
  unfold run_main. destruct (loop3 url_list [] []) as [h results].
  assert (Hq : fst (try_catch (drv_quit b) (fun _ => ret tt) h) = Quit :: h).
  { unfold try_catch, drv_quit, unit_answer, ret. now destruct (on_quit b h). }
  rewrite Hq. now destruct (write_csv results).
Qed.

(** X16: with a driver at hand the browser is always released, and
    last: [Quit] is the final command of the run and is sent once,
    whether URLs failed, [quit] itself raised or the CSV could not be
    written. *)
Theorem run_main_quits_last (url_list : list string) :
  exists cs,
    commands (run_main str_of_tag quote path_join (DriverReady b) args url_list)
    = Quit :: cs
    /\ ~ In Quit cs.
Proof.
  rewrite run_main_commands.
  destruct (main_loop_no_quit url_list [] []) as (cs & Hcs & Hq).
  exists cs. rewrite Hcs, app_nil_r. auto.
Qed.




End RunFacts.

Lemma run_main_quits_last_witness :
  hd_error (commands (run_main Sample.show_tag Sample.no_quote Sample.join_path
                               (DriverReady Sample.measuring_browser) Sample.args
                               ["https://a.example"; "https://bad.example"]))
  = Some Quit.
Proof.
  destruct (run_main_quits_last Sample.show_tag Sample.no_quote Sample.join_path
              Sample.measuring_browser Sample.args
              ["https://a.example"; "https://bad.example"]) as (cs & -> & _).
  reflexivity.
Defined.


(** ** From the URL list to the files *)





(** X19: the two screenshots of one URL never share a file name, even
    when both directories are the same. *)
Theorem screenshot_names_differ (url : string) :
  sanitize_filename url ++ ".png" <> sanitize_filename url ++ "_meta.png".
Proof.
  intros H. apply str_app_inv_head in H. discriminate.
Qed.
